(** * The documentation-generator client (src/app.py)

    A shallow embedding of the Streamlit front end: the three helper
    functions that talk to the backend ([upload_and_process_file],
    [check_documentation_exists], [get_pdf_content]), the URL and markup
    helpers, and the top-level script with its session list.

    The script is effectful: it sends HTTP requests, writes elements to the
    page, appends to [st.session_state.uploaded_files], and uses exceptions
    with [try]/[except].  All of this is threaded through one monad over a
    [world]; the backend is an arbitrary function answering the n-th request
    of the session.

    Left out: the port and page configuration at the top of the file, which
    touch neither the session list, nor the requests, nor the page elements.
    The clock reading of [time.time()] and what the widgets hold are inputs
    of a run of the script ([interaction]). *)

From Stdlib Require Import List String ZArith Bool Lia.
From Stdlib Require Import Init.Byte.
Import ListNotations.
Local Open Scope string_scope.
Local Open Scope Z_scope.

(** ** Python values

    What [response.json()] can return, and [None]. JSON numbers are kept as
    integers. A dict is the list of its items; [.get] finds a key's item. *)

#[warnings="-register-all"]
Inductive value : Type :=
| VNone
| VBool (b : bool)
| VInt (n : Z)
| VStr (s : string)
| VList (xs : list value)
| VDict (items : list (string * value)).

(** [bool(v)], as used by [if v:]. *)
Definition truthy (v : value) : bool :=
  match v with
  | VNone => false
  | VBool b => b
  | VInt n => negb (n =? 0)
  | VStr s => negb (String.eqb s EmptyString)
  | VList xs => match xs with [] => false | _ => true end
  | VDict items => match items with [] => false | _ => true end
  end.

(** [bool(b)] for a [bytes] object: empty is false. *)
Definition truthy_bytes (b : list byte) : bool :=
  match b with [] => false | _ => true end.

Fixpoint lookup (key : string) (items : list (string * value)) : option value :=
  match items with
  | [] => None
  | (k, v) :: rest => if String.eqb k key then Some v else lookup key rest
  end.

(** Exceptions the script can meet. *)
Inductive exn : Type :=
| RequestException (why : string)   (* requests: timeout, refused connection, ... *)
| JSONDecodeError                   (* response.json() on a body that is not JSON *)
| AttributeError (attr : string)    (* .get on a value that is not a dict *)
| RerunException.                   (* st.experimental_rerun(): script control *)

(** [isinstance(e, Exception)]: Streamlit's control exception derives from
    [BaseException] only, so [except Exception] lets it through. *)
Definition is_Exception (e : exn) : bool :=
  match e with
  | RerunException => false
  | _ => true
  end.

(** An f-string, kept as its literal parts and its formatted arguments. *)
Inductive piece : Type :=
| Lit (s : string)
| Fmt (v : value)          (* {v} *)
| FmtExn (e : exn)         (* {str(e)} *)
| B64 (b : list byte).     (* base64.b64encode(b).decode('utf-8') *)

Definition text := list piece.

(** The double-quote character, for the HTML the script writes. *)
Definition dquote : string := String (Ascii.ascii_of_nat 34) EmptyString.

(** ** HTTP as [requests] shows it *)

Inductive request : Type :=
| POST (url : text)
       (files : list (string * (string * list byte * string)))
       (data : list (string * string))
| GET (url : text).

Record response : Type := {
  status_code : Z;
  content : list byte;
  json_body : option value     (* None: response.json() raises *)
}.

(** What a call to [requests.get]/[requests.post] comes back with. *)
Inductive outcome : Type :=
| Failure (why : string)     (* the call raised: no response at all *)
| Reply (r : response).

(** The backend: its answer to the [n]-th request of the session. *)
Definition backend := nat -> request -> outcome.

(** ** The page and the session *)

Inductive element : Type :=
| write (t : text)
| error (t : text)
| success (t : text)
| info (t : text)
| warning (t : text)
| title (t : text)
| header (t : text)
| subheader (t : text)
| markdown (t : text)
| spinner (t : text)
| button (label : string)
| selectbox (label : string) (options : list string)
| file_uploader (label : string) (types : list string)
| columns (n : nat)
| column (i : nat)
| sidebar (e : element).

(** The file object handed over by [st.sidebar.file_uploader]. *)
Record UploadedFile : Type := {
  name : string;
  getvalue : list byte;
  type : string
}.

Definition size (f : UploadedFile) : Z := Z.of_nat (List.length (getvalue f)).

(** One entry of [st.session_state.uploaded_files]. *)
Record file_info : Type := {
  file_id : value;
  filename : string;
  doc_type : string;
  doc_level : string;
  upload_time : Z
}.

Record world : Type := {
  uploaded_files : list file_info;   (* st.session_state.uploaded_files *)
  page : list element;               (* what st.* has emitted, in order *)
  sent : list request                (* requests issued so far, in order *)
}.

(** ** The monad: state plus exceptions; state survives a raise. *)

Inductive result (A : Type) : Type :=
| Ok (a : A)
| Raise (e : exn).
Arguments Ok {A} a.
Arguments Raise {A} e.

Definition M (A : Type) : Type := world -> result A * world.

Definition ret {A} (a : A) : M A := fun w => (Ok a, w).

Definition raise {A} (e : exn) : M A := fun w => (Raise e, w).

Definition bind {A B} (m : M A) (k : A -> M B) : M B :=
  fun w =>
    match m w with
    | (Ok a, w') => k a w'
    | (Raise e, w') => (Raise e, w')
    end.

(** [try: m except Exception as e: h e] *)
Definition try_except {A} (m : M A) (h : exn -> M A) : M A :=
  fun w =>
    match m w with
    | (Ok a, w') => (Ok a, w')
    | (Raise e, w') => if is_Exception e then h e w' else (Raise e, w')
    end.

(** [try: m except: h], the bare form, which catches everything. *)
Definition try_except_all {A} (m : M A) (h : M A) : M A :=
  fun w =>
    match m w with
    | (Ok a, w') => (Ok a, w')
    | (Raise _, w') => h w'
    end.

Declare Scope py_scope.
Delimit Scope py_scope with py.
Notation "x <- m ;; k" := (bind m (fun x => k))
  (at level 61, m at next level, right associativity) : py_scope.
Notation "m ;; k" := (bind m (fun _ => k))
  (at level 61, right associativity) : py_scope.
Local Open Scope py_scope.

Definition returned {A} (m : M A) (w : world) : result A := fst (m w).
Definition after {A} (m : M A) (w : world) : world := snd (m w).

(** Emitting an element. *)
Definition st (e : element) : M unit :=
  fun w => (Ok tt, {| uploaded_files := uploaded_files w;
                      page := page w ++ [e];
                      sent := sent w |}).

(** [st.session_state.uploaded_files.append(r)] *)
Definition append (r : file_info) : M unit :=
  fun w => (Ok tt, {| uploaded_files := uploaded_files w ++ [r];
                      page := page w;
                      sent := sent w |}).

Definition session_state_uploaded_files : M (list file_info) :=
  fun w => (Ok (uploaded_files w), w).

(** [v.get(key)] and [v.get(key, default)] *)
Definition py_get (v : value) (key : string) (default : value) : M value :=
  match v with
  | VDict items =>
      match lookup key items with
      | Some x => ret x
      | None => ret default
      end
  | _ => raise (AttributeError "get")
  end.

(** [response.json()] *)
Definition json (r : response) : M value :=
  match json_body r with
  | Some v => ret v
  | None => raise JSONDecodeError
  end.

Section Client.

Variable net : backend.

(** Issue a request: it is recorded, and the backend's answer is either a
    response or the exception [requests] raises. *)
Definition perform (rq : request) : M response :=
  fun w =>
    let w' := {| uploaded_files := uploaded_files w;
                 page := page w;
                 sent := sent w ++ [rq] |} in
    match net (List.length (sent w)) rq with
    | Failure why => (Raise (RequestException why), w')
    | Reply r => (Ok r, w')
    end.

Definition requests_post url files data : M response := perform (POST url files data).
Definition requests_get url : M response := perform (GET url).

Definition API_BASE_URL : string := "http://localhost:7000".

(** ** Helper functions *)

Definition upload_and_process_file
    (uploaded_file : UploadedFile) (doc_type doc_level : string) : M value :=
  try_except
    (let files := [("file", (name uploaded_file, getvalue uploaded_file, type uploaded_file))] in
     st (write [Lit "Attempting to upload file: "; Fmt (VStr (name uploaded_file));
                Lit " ("; Fmt (VInt (size uploaded_file)); Lit " bytes)"]) ;;
     st (write [Lit "Document type: "; Fmt (VStr doc_type)]) ;;
     st (write [Lit "Documentation level selected: "; Fmt (VStr doc_level)]) ;;
     response <- requests_post [Fmt (VStr API_BASE_URL); Lit "/upload"] files
                   [("doc_type", doc_type); ("doc_level", doc_level)] ;;
     st (write [Lit "Upload response status: "; Fmt (VInt (status_code response))]) ;;
     if status_code response =? 200 then
       result <- json response ;;
       st (write [Lit "Response content: "; Fmt result]) ;;
       flag <- py_get result "success" VNone ;;
       if truthy flag then
         fid <- py_get result "file_id" VNone ;;
         st (write [Lit "File ID: "; Fmt fid]) ;;
         ret result
       else
         msg <- py_get result "message" (VStr "Unknown error") ;;
         st (error [Lit "Upload failed: "; Fmt msg]) ;;
         ret VNone
     else
       st (error [Lit "Upload failed with status code "; Fmt (VInt (status_code response))]) ;;
       try_except_all
         (details <- json response ;;
          st (write [Lit "Error details: "; Fmt details]))
         (st (write [Lit "Could not parse error response"])) ;;
       ret VNone)
    (fun e =>
       st (error [Lit "Error uploading file: "; FmtExn e]) ;;
       ret VNone).

Definition check_documentation_exists (file_id : value) : M bool :=
  try_except
    (st (write [Lit "Checking if documentation exists for file ID: "; Fmt file_id]) ;;
     response <- requests_get [Fmt (VStr API_BASE_URL); Lit "/documentation/"; Fmt file_id] ;;
     st (write [Lit "Documentation check status code: "; Fmt (VInt (status_code response))]) ;;
     if status_code response =? 200 then
       st (write [Lit "Documentation exists!"]) ;;
       ret true
     else
       st (write [Lit "Documentation not ready yet. Status: "; Fmt (VInt (status_code response))]) ;;
       try_except
         (status_response <- requests_get [Fmt (VStr API_BASE_URL); Lit "/status/"; Fmt file_id] ;;
          if status_code status_response =? 200 then
            status_data <- json status_response ;;
            v_status <- py_get status_data "status" VNone ;;
            st (write [Lit "Processing status: "; Fmt v_status]) ;;
            v_progress <- py_get status_data "progress" VNone ;;
            st (write [Lit "Progress: "; Fmt v_progress; Lit "%"]) ;;
            v_stage <- py_get status_data "current_stage" VNone ;;
            st (write [Lit "Current stage: "; Fmt v_stage]) ;;
            v_error <- py_get status_data "error" VNone ;;
            if truthy v_error then
              v_error' <- py_get status_data "error" VNone ;;
              st (error [Lit "Processing error: "; Fmt v_error'])
            else ret tt
          else ret tt)
         (fun status_err =>
            st (write [Lit "Could not get processing status: "; FmtExn status_err])) ;;
       ret false)
    (fun e =>
       st (write [Lit "Error checking documentation: "; FmtExn e]) ;;
       ret false).

(** Returns the body ([Some]) or [None]. *)
Definition get_pdf_content (file_id : value) : M (option (list byte)) :=
  try_except_all
    (response <- requests_get [Fmt (VStr API_BASE_URL); Lit "/download/"; Fmt file_id;
                               Lit "?format=pdf"] ;;
     if status_code response =? 200 then ret (Some (content response))
     else ret None)
    (ret None).

Definition get_document_download_url (file_id : value) (format : string) : text :=
  [Fmt (VStr API_BASE_URL); Lit "/download/"; Fmt file_id; Lit "?format="; Fmt (VStr format)].

Definition display_pdf (pdf_content : list byte) : M unit :=
  let base64_pdf := B64 pdf_content in
  let pdf_display := [Lit "<iframe src="; Lit dquote; Lit "data:application/pdf;base64,";
                      base64_pdf; Lit dquote; Lit " class="; Lit dquote; Lit "pdf-viewer";
                      Lit dquote; Lit "></iframe>"] in
  st (markdown pdf_display).

Definition create_download_button (file_id : value) (format label : string) : M unit :=
  let download_url := get_document_download_url file_id format in
  st (markdown
        ([Lit "<div class="; Lit dquote; Lit "download-btn"; Lit dquote; Lit "><a href="; Lit dquote]
         ++ download_url ++
         [Lit dquote; Lit " target="; Lit dquote; Lit "_blank"; Lit dquote; Lit ">";
          Lit "<button style="; Lit dquote;
          Lit "width:100%;padding:0.5em;background-color:#4CAF50;color:white;";
          Lit "border:none;border-radius:5px;cursor:pointer;"; Lit dquote; Lit ">";
          Fmt (VStr label); Lit "</button></a></div>"])%list).

(** ** The script

    One run of the script is driven by what the widgets return in that run. *)

Record interaction : Type := {
  doc_type_index : nat;                  (* entry picked in the first selectbox *)
  chosen_file : option UploadedFile;     (* what the file uploader holds *)
  doc_level_index : nat;                 (* entry picked in the second selectbox *)
  process_file_pressed : bool;
  refresh_status_pressed : bool;
  time_time : Z                          (* the clock reading of time.time() *)
}.

(** A selectbox shows its options and returns the picked one; with nothing
    picked it holds the first. *)
Definition st_sidebar_selectbox (label : string) (options : list string) (index : nat)
  : M string :=
  st (sidebar (selectbox label options)) ;;
  ret (nth index options (hd EmptyString options)).

Definition st_sidebar_file_uploader (label : string) (types : list string)
    (held : option UploadedFile) : M (option UploadedFile) :=
  st (sidebar (file_uploader label types)) ;;
  ret held.

Definition st_sidebar_button (label : string) (pressed : bool) : M bool :=
  st (sidebar (button label)) ;;
  ret pressed.

Definition st_button (label : string) (pressed : bool) : M bool :=
  st (button label) ;;
  ret pressed.

Definition st_experimental_rerun : M unit := raise RerunException.

Fixpoint for_each {A} (xs : list A) (body : A -> M unit) : M unit :=
  match xs with
  | [] => ret tt
  | x :: rest => body x ;; for_each rest body
  end.

(** [if pdf_content:] on the optional bytes. *)
Definition truthy_content (c : option (list byte)) : bool :=
  match c with
  | Some b => truthy_bytes b
  | None => false
  end.

Definition custom_css : string :=
"
<style>
    .main {
        padding: 1rem;
    }
    .stButton button {
        width: 100%;
        border-radius: 5px;
        height: 3em;
        font-weight: bold;
    }
    .pdf-viewer {
        width: 100%;
        height: 800px;
        border: none;
    }
    .download-btn {
        margin-top: 10px;
        margin-bottom: 10px;
    }
    h1, h2, h3 {
        margin-bottom: 0.5rem;
    }
    .stAlert {
        margin-top: 1rem;
        margin-bottom: 1rem;
    }
</style>
".

Definition doc_type_options : list string := ["BRD"; "SOW"; "FRD"].
Definition doc_level_options : list string := ["Simple"; "Intermediate"; "Advanced"].
Definition media_types : list string := ["mp3"; "wav"; "mp4"; "avi"; "mov"; "m4a"; "ogg"].

(** The body under [if st.sidebar.button("Process File"):]. *)
Definition process_file (i : interaction) (uploaded_file : UploadedFile)
    (doc_type doc_level : string) : M unit :=
  st (spinner [Lit "Uploading and processing file..."]) ;;
  result <- upload_and_process_file uploaded_file doc_type doc_level ;;
  if truthy result then
    file_id <- py_get result "file_id" VNone ;;
    append {| file_id := file_id;
              filename := name uploaded_file;
              doc_type := doc_type;
              doc_level := doc_level;
              upload_time := time_time i |} ;;
    st (success [Lit "File uploaded successfully! File ID: "; Fmt file_id])
  else ret tt.

(** The body of the loop over the session list. *)
Definition show_file (file_info : file_info) : M unit :=
  let file_id := file_id file_info in
  let filename := filename file_info in
  st (subheader [Lit "File: "; Fmt (VStr filename)]) ;;
  st (markdown [Lit "File ID: `"; Fmt file_id; Lit "`"]) ;;
  ready <- check_documentation_exists file_id ;;
  if ready then
    pdf_content <- get_pdf_content file_id ;;
    if truthy_content pdf_content then
      st (columns 4) ;;
      st (column 1) ;; create_download_button file_id "pdf" "Download PDF" ;;
      st (column 2) ;; create_download_button file_id "docx" "Download DOCX" ;;
      st (column 3) ;; create_download_button file_id "html" "Download HTML" ;;
      st (column 4) ;; create_download_button file_id "json" "Download JSON" ;;
      st (markdown [Lit "### PDF Preview"]) ;;
      display_pdf (match pdf_content with Some b => b | None => [] end)
    else
      st (warning [Lit "PDF content not available. Try refreshing."])
  else
    st (spinner [Lit "Documentation is being generated..."]) ;;
    st (info [Lit "Documentation is not ready yet. Please wait or refresh."]).

(** Title, sidebar and the input widgets (the part of the script before
    the Process File button). It yields what the widgets hold. *)
Definition sidebar_inputs (i : interaction)
  : M (string * option UploadedFile * option string) :=
  st (markdown [Lit custom_css]) ;;
  st (title [Lit "📄 CrewAI Project Documentation Generator"]) ;;
  st (markdown [Lit "---"]) ;;
  st (sidebar (title [Lit "Upload Media"])) ;;
  st (sidebar (markdown [Lit "Upload audio or video files to generate project documentation."])) ;;
  doc_type <- st_sidebar_selectbox "Select Document Type" doc_type_options (doc_type_index i) ;;
  (if String.eqb doc_type "BRD" then
     st (sidebar (info [Lit "Business Requirements Document (BRD): Defines the business needs and requirements for a project."]))
   else if String.eqb doc_type "SOW" then
     st (sidebar (info [Lit "Statement of Work (SOW): Details the specific work to be performed, deliverables, and timeline."]))
   else if String.eqb doc_type "FRD" then
     st (sidebar (info [Lit "Functional Requirements Document (FRD): Specifies the functional requirements and system behavior."]))
   else ret tt) ;;
  uploaded_file <- st_sidebar_file_uploader "Choose a media file" media_types (chosen_file i) ;;
  doc_level <-
    match uploaded_file with
    | Some _ =>
        st (sidebar (markdown [Lit "### Select Documentation Level"])) ;;
        doc_level <- st_sidebar_selectbox "Select Documentation Level" doc_level_options
                       (doc_level_index i) ;;
        (if String.eqb doc_level "Simple" then
           st (sidebar (info [Lit "Simple: Concise document with fundamental project information. Suitable for initial discussions."]))
         else if String.eqb doc_level "Intermediate" then
           st (sidebar (info [Lit "Intermediate: Detailed document with comprehensive requirements and process flows. Suitable for project development."]))
         else if String.eqb doc_level "Advanced" then
           st (sidebar (info [Lit "Advanced: Exhaustive document with in-depth analysis and specifications. Suitable for complex enterprise projects."]))
         else ret tt) ;;
        ret (Some doc_level)
    | None => ret None
    end ;;
  ret (doc_type, uploaded_file, doc_level).

(** The Process File button: shown only while a file is held. *)
Definition process_file_button (i : interaction) (doc_type : string)
    (uploaded_file : option UploadedFile) (doc_level : option string) : M unit :=
  match uploaded_file, doc_level with
  | Some f, Some doc_level =>
      pressed <- st_sidebar_button "Process File" (process_file_pressed i) ;;
      if pressed then process_file i f doc_type doc_level else ret tt
  | _, _ => ret tt
  end.

(** The part under the header: every record of the session list in turn. *)
Definition generated_documentation (i : interaction) : M unit :=
  st (header [Lit "Generated Documentation"]) ;;
  files <- session_state_uploaded_files ;;
  match files with
  | [] => st (info [Lit "No files have been uploaded yet. Upload a file to get started."])
  | _ :: _ =>
      pressed <- st_button "Refresh Status" (refresh_status_pressed i) ;;
      (if pressed then st_experimental_rerun else ret tt) ;;
      for_each files show_file
  end.

Definition script (i : interaction) : M unit :=
  inputs <- sidebar_inputs i ;;
  let '(doc_type, uploaded_file, doc_level) := inputs in
  process_file_button i doc_type uploaded_file doc_level ;;
  generated_documentation i.

(** The same widget state with both buttons released, as on the run that
    follows a rerun request. *)
Definition released (i : interaction) : interaction :=
  {| doc_type_index := doc_type_index i;
     chosen_file := chosen_file i;
     doc_level_index := doc_level_index i;
     process_file_pressed := false;
     refresh_status_pressed := false;
     time_time := time_time i |}.

(** Each run of the script draws the page anew. *)
Definition new_page (w : world) : world :=
  {| uploaded_files := uploaded_files w; page := []; sent := sent w |}.

(** One user interaction: the script runs top to bottom; a rerun request
    stops it and starts it once more with the buttons released. *)
Definition run (i : interaction) (w : world) : result unit * world :=
  match script i (new_page w) with
  | (Raise RerunException, w') => script (released i) (new_page w')
  | r => r
  end.

(** A session: the runs triggered by a sequence of interactions. *)
Fixpoint session (steps : list interaction) (w : world) : world :=
  match steps with
  | [] => w
  | i :: rest => session rest (snd (run i w))
  end.

End Client.

(** The world at the start of a session: line 58 creates the empty list. *)
Definition initial : world := {| uploaded_files := []; page := []; sent := [] |}.

(** * Vocabulary of the statements *)

Local Open Scope list_scope.

(** The requests the helpers send. *)
Definition upload_request (f : UploadedFile) (doc_type doc_level : string) : request :=
  POST [Fmt (VStr API_BASE_URL); Lit "/upload"]
       [("file", (name f, getvalue f, type f))]
       [("doc_type", doc_type); ("doc_level", doc_level)].

Definition documentation_url (file_id : value) : text :=
  [Fmt (VStr API_BASE_URL); Lit "/documentation/"; Fmt file_id].

Definition status_url (file_id : value) : text :=
  [Fmt (VStr API_BASE_URL); Lit "/status/"; Fmt file_id].

Definition download_pdf_url (file_id : value) : text :=
  [Fmt (VStr API_BASE_URL); Lit "/download/"; Fmt file_id; Lit "?format=pdf"].

(** The answer the backend gives to the next request, were it [rq]. *)
Definition next_answer (net : backend) (w : world) (rq : request) : outcome :=
  net (List.length (sent w)) rq.

(** The answer to the request after the next one. *)
Definition second_answer (net : backend) (w : world) (rq : request) : outcome :=
  net (S (List.length (sent w))) rq.

(** The backend answered with HTTP status exactly 200. *)
Definition is_200 (o : outcome) : bool :=
  match o with
  | Reply r => status_code r =? 200
  | Failure _ => false
  end.

(** The body of a 200 answer; nothing for any other answer or a failure. *)
Definition body_of (o : outcome) : option (list byte) :=
  match o with
  | Reply r => if status_code r =? 200 then Some (content r) else None
  | Failure _ => None
  end.

(** A field of a JSON object as [.get] reads it. *)
Definition field (key : string) (items : list (string * value)) : value :=
  match lookup key items with
  | Some v => v
  | None => VNone
  end.

(** The ways a submission fails: no response, a status other than 200, a
    200 whose success flag is false or missing, a 200 whose body is not
    JSON, or is JSON but not an object. *)
Inductive failed : outcome -> Prop :=
| failed_network why :
    failed (Failure why)
| failed_status r :
    status_code r <> 200 -> failed (Reply r)
| failed_flag r items :
    status_code r = 200 -> json_body r = Some (VDict items) ->
    truthy (field "success" items) = false -> failed (Reply r)
| failed_malformed r :
    status_code r = 200 -> json_body r = None -> failed (Reply r)
| failed_not_object r v :
    status_code r = 200 -> json_body r = Some v ->
    (forall items, v <> VDict items) -> failed (Reply r).

(** What [upload_and_process_file] makes of the backend's answer: the
    parsed object of an accepted upload, [None] otherwise. *)
Definition verdict (o : outcome) : value :=
  match o with
  | Reply r =>
      if status_code r =? 200 then
        match json_body r with
        | Some (VDict items) =>
            if truthy (field "success" items) then VDict items else VNone
        | _ => VNone
        end
      else VNone
  | Failure _ => VNone
  end.

(** The record the handler builds for a file and a backend-assigned id. *)
Definition record_for (i : interaction) (f : UploadedFile) (doc_type doc_level : string)
    (id : value) : file_info :=
  {| file_id := id;
     filename := name f;
     doc_type := doc_type;
     doc_level := doc_level;
     upload_time := time_time i |}.

(** The records a press of the button adds, given the backend's answer. *)
Definition new_records (i : interaction) (f : UploadedFile) (doc_type doc_level : string)
    (o : outcome) : list file_info :=
  match verdict o with
  | VDict items => [record_for i f doc_type doc_level (field "file_id" items)]
  | _ => []
  end.

(** An id is empty when it is the empty string, or absent. *)
Definition empty_id (v : value) : bool :=
  match v with
  | VNone => true
  | VStr s => String.eqb s EmptyString
  | _ => false
  end.

(** [k] polls of one id in a row, as successive renders make them, with
    the answer of the existence endpoint at each. *)
Fixpoint polls (net : backend) (k : nat) (file_id : value) (w : world)
  : list (outcome * result bool) :=
  match k with
  | O => []
  | S k' =>
      (next_answer net w (GET (documentation_url file_id)),
       returned (check_documentation_exists net file_id) w)
      :: polls net k' file_id (after (check_documentation_exists net file_id) w)
  end.

(** Elements that only inform: plain text lines. *)
Definition informational (e : element) : bool :=
  match e with
  | write _ => true
  | _ => false
  end.

(** The progress query failed: no response, or a status other than 200. *)
Definition probe_failed (o : outcome) : bool := negb (is_200 o).

(** The subheaders on a page, in order; the loop writes one per record. *)
Definition subheadings (p : list element) : list text :=
  flat_map (fun e => match e with subheader t => [t] | _ => [] end) p.

Definition headings (w : world) : list text := subheadings (page w).

Definition heading (r : file_info) : text := [Lit "File: "; Fmt (VStr (filename r))].

(** What [show_file] draws for a record that is ready but whose PDF is not
    to be had. *)
Definition unavailable (r : file_info) : list element :=
  [ subheader [Lit "File: "; Fmt (VStr (filename r))];
    markdown [Lit "File ID: `"; Fmt (file_id r); Lit "`"];
    write [Lit "Checking if documentation exists for file ID: "; Fmt (file_id r)];
    write [Lit "Documentation check status code: "; Fmt (VInt 200)];
    write [Lit "Documentation exists!"];
    warning [Lit "PDF content not available. Try refreshing."] ].

(** ** Judgements on computations

    [safe]: it returns, whatever the world. [tame]: what it raises, if
    anything, is caught by [except Exception]. [keeps f]: it leaves the part
    [f] of the world as it found it. *)

Definition safe {A} (m : M A) : Prop :=
  forall w, exists a, fst (m w) = Ok a.

Definition tame {A} (m : M A) : Prop :=
  forall w e, fst (m w) = Raise e -> is_Exception e = true.

Definition keeps {X} (f : world -> X) {A} (m : M A) : Prop :=
  forall w, f (snd (m w)) = f w.

(** ** Sample inputs and backends *)

Definition demo_file : UploadedFile :=
  {| name := "demo.mp3"; getvalue := [x49; x44; x33; x04]; type := "audio/mpeg" |}.

Definition empty_file : UploadedFile :=
  {| name := "empty.mp3"; getvalue := []; type := "audio/mpeg" |}.

Definition pdf_bytes : list byte := [x25; x50; x44; x46; x2d; x31; x2e; x34].

(** SOW, Advanced, the button pressed. *)
Definition press_process (f : UploadedFile) : interaction :=
  {| doc_type_index := 1;
     chosen_file := Some f;
     doc_level_index := 2;
     process_file_pressed := true;
     refresh_status_pressed := false;
     time_time := 1700000000 |}.

Definition just_look : interaction :=
  {| doc_type_index := 0;
     chosen_file := None;
     doc_level_index := 0;
     process_file_pressed := false;
     refresh_status_pressed := false;
     time_time := 1700000060 |}.

Definition reply (code : Z) (body : list byte) (parsed : option value) : outcome :=
  Reply {| status_code := code; content := body; json_body := parsed |}.

Definition not_found : outcome := reply 404 [] None.

(** Accepts every upload with the given id; nothing is ever ready. *)
Definition net_accepting (id : value) : backend :=
  fun _ rq =>
    match rq with
    | POST _ _ _ => reply 200 [] (Some (VDict [("success", VBool true); ("file_id", id)]))
    | GET _ => not_found
    end.

(** Accepts, but names no id at all. *)
Definition net_accepting_without_id : backend :=
  fun _ rq =>
    match rq with
    | POST _ _ _ => reply 200 [] (Some (VDict [("success", VBool true)]))
    | GET _ => not_found
    end.

(** Unreachable: every call fails. *)
Definition net_down : backend := fun _ _ => Failure "connection refused".

(** Answers the first request with 200 and is unreachable afterwards. *)
Definition net_up_then_down : backend :=
  fun n _ => if Nat.eqb n 0 then reply 200 pdf_bytes None else Failure "connection refused".

(** Answers every request with 200 and the same PDF. *)
Definition net_serving : backend := fun _ _ => reply 200 pdf_bytes None.

(** Ready, but the download comes back with an empty body. *)
Definition net_empty_pdf : backend := fun _ _ => reply 200 [] None.

(** Not ready (404), and the progress query fails. *)
Definition net_not_ready_probe_down : backend :=
  fun n _ => if Nat.eqb n 0 then not_found else Failure "timed out".

(** The scenario of the specification: the upload is accepted as abc123,
    the existence check says 404 twice and 200 from then on, the download
    serves the PDF. Requests 1 to 4 are the two not-ready polls, each with
    its progress query. *)
Definition net_scenario : backend :=
  fun n rq =>
    match rq with
    | POST _ _ _ =>
        reply 200 [] (Some (VDict [("success", VBool true); ("file_id", VStr "abc123")]))
    | GET _ => if Nat.leb n 4 then not_found else reply 200 pdf_bytes None
    end.

Definition abc123 : file_info :=
  {| file_id := VStr "abc123"; filename := "demo.mp3"; doc_type := "SOW";
     doc_level := "Advanced"; upload_time := 1700000000 |}.

Definition one_record : world :=
  {| uploaded_files := [abc123]; page := []; sent := [] |}.

(** A file that is no media file, empty on top. *)
Definition notes_txt : UploadedFile :=
  {| name := "notes.txt"; getvalue := []; type := "text/plain" |}.

(** What the two select boxes hold for an interaction. *)
Definition chosen_doc_type (i : interaction) : string :=
  nth (doc_type_index i) doc_type_options (hd EmptyString doc_type_options).

Definition chosen_doc_level (i : interaction) : string :=
  nth (doc_level_index i) doc_level_options (hd EmptyString doc_level_options).

(** The records one interaction adds to the session list: those of the
    upload, when a file is held and the button pressed. *)
Definition submitted (net : backend) (i : interaction) (w : world) : list file_info :=
  match chosen_file i with
  | Some f =>
      if process_file_pressed i then
        new_records i f (chosen_doc_type i) (chosen_doc_level i)
          (next_answer net w (upload_request f (chosen_doc_type i) (chosen_doc_level i)))
      else []
  | None => []
  end.

(** What a not-ready poll writes when the backend said [r] to the existence
    check and [probe] to the progress query that failed. *)
Definition not_ready_lines (file_id : value) (r : response) (probe : outcome)
  : list element :=
  [ write [Lit "Checking if documentation exists for file ID: "; Fmt file_id];
    write [Lit "Documentation check status code: "; Fmt (VInt (status_code r))];
    write [Lit "Documentation not ready yet. Status: "; Fmt (VInt (status_code r))] ]
  ++ match probe with
     | Failure why =>
         [write [Lit "Could not get processing status: "; FmtExn (RequestException why)]]
     | Reply _ => []
     end.


(** ** Vocabulary of the further properties *)

(** The elements of the page that satisfy [g], in order. *)
Definition picked (g : element -> bool) (w : world) : list element :=
  filter g (page w).

Definition is_error (e : element) : bool :=
  match e with error _ => true | _ => false end.

Definition is_success (e : element) : bool :=
  match e with success _ => true | _ => false end.

(** A button of the main area, and one of the sidebar. *)
Definition is_main_button (e : element) : bool :=
  match e with button _ => true | _ => false end.

Definition is_sidebar_button (e : element) : bool :=
  match e with sidebar (button _) => true | _ => false end.

Definition is_POST (rq : request) : bool :=
  match rq with POST _ _ _ => true | GET _ => false end.

(** The uploads among the requests sent so far. *)
Definition posts (w : world) : list request := filter is_POST (sent w).

(** The upload a run sends: one when a file is held and the button
    pressed, none otherwise. *)
Definition uploads (i : interaction) : list request :=
  match chosen_file i with
  | Some f =>
      if process_file_pressed i
      then [upload_request f (chosen_doc_type i) (chosen_doc_level i)]
      else []
  | None => []
  end.

(** The requests a record's turn in the loop sends, given the answer to
    its existence check. *)
Definition requests_of (r : file_info) (o : outcome) : list request :=
  GET (documentation_url (file_id r))
  :: match o with
     | Reply a =>
         if status_code a =? 200
         then [GET (download_pdf_url (file_id r))]
         else [GET (status_url (file_id r))]
     | Failure _ => []
     end.

(** What [create_download_button] and [display_pdf] write. *)
Definition download_button (file_id : value) (format label : string) : element :=
  markdown
    ([Lit "<div class="; Lit dquote; Lit "download-btn"; Lit dquote; Lit "><a href="; Lit dquote]
     ++ get_document_download_url file_id format ++
     [Lit dquote; Lit " target="; Lit dquote; Lit "_blank"; Lit dquote; Lit ">";
      Lit "<button style="; Lit dquote;
      Lit "width:100%;padding:0.5em;background-color:#4CAF50;color:white;";
      Lit "border:none;border-radius:5px;cursor:pointer;"; Lit dquote; Lit ">";
      Fmt (VStr label); Lit "</button></a></div>"]).

Definition preview (pdf_content : list byte) : element :=
  markdown [Lit "<iframe src="; Lit dquote; Lit "data:application/pdf;base64,";
            B64 pdf_content; Lit dquote; Lit " class="; Lit dquote; Lit "pdf-viewer";
            Lit dquote; Lit "></iframe>"].

(** What [show_file] draws for a record that is ready and whose PDF came. *)
Definition available (r : file_info) (pdf_content : list byte) : list element :=
  [ subheader [Lit "File: "; Fmt (VStr (filename r))];
    markdown [Lit "File ID: `"; Fmt (file_id r); Lit "`"];
    write [Lit "Checking if documentation exists for file ID: "; Fmt (file_id r)];
    write [Lit "Documentation check status code: "; Fmt (VInt 200)];
    write [Lit "Documentation exists!"];
    columns 4;
    column 1; download_button (file_id r) "pdf" "Download PDF";
    column 2; download_button (file_id r) "docx" "Download DOCX";
    column 3; download_button (file_id r) "html" "Download HTML";
    column 4; download_button (file_id r) "json" "Download JSON";
    markdown [Lit "### PDF Preview"];
    preview pdf_content ].

(** The lines of a not-ready poll whose progress query was answered with a
    JSON object. *)
Definition progress_lines (file_id : value) (r : response) (items : list (string * value))
  : list element :=
  [ write [Lit "Checking if documentation exists for file ID: "; Fmt file_id];
    write [Lit "Documentation check status code: "; Fmt (VInt (status_code r))];
    write [Lit "Documentation not ready yet. Status: "; Fmt (VInt (status_code r))];
    write [Lit "Processing status: "; Fmt (field "status" items)];
    write [Lit "Progress: "; Fmt (field "progress" items); Lit "%"];
    write [Lit "Current stage: "; Fmt (field "current_stage" items)] ]
  ++ (if truthy (field "error" items)
      then [error [Lit "Processing error: "; Fmt (field "error" items)]]
      else []).

(** A record whose type and level are entries of the two select boxes. *)
Definition well_formed (r : file_info) : Prop :=
  In (doc_type r) doc_type_options /\ In (doc_level r) doc_level_options.

(** Pressed once more: Refresh Status instead of Process File. *)
Definition press_refresh : interaction :=
  {| doc_type_index := 0;
     chosen_file := None;
     doc_level_index := 0;
     process_file_pressed := false;
     refresh_status_pressed := true;
     time_time := 1700000120 |}.

(** Not ready, with the progress query answered: half way, no error. *)
Definition net_in_progress : backend :=
  fun n _ =>
    if Nat.eqb n 0 then not_found
    else reply 200 [] (Some (VDict [("status", VStr "processing"); ("progress", VInt 50);
                                    ("current_stage", VStr "transcription")])).

(** Rejects every upload in the body of a 200, with and without a message. *)
Definition net_rejecting (message : option value) : backend :=
  fun _ rq =>
    match rq with
    | POST _ _ _ =>
        reply 200 []
          (Some (VDict (("success", VBool false)
                        :: match message with Some m => [("message", m)] | None => [] end)))
    | GET _ => not_found
    end.

(** The text of the error box a failed submission ends in. *)
Definition complaint (o : outcome) : text :=
  match o with
  | Failure why => [Lit "Error uploading file: "; FmtExn (RequestException why)]
  | Reply r =>
      if status_code r =? 200 then
        match json_body r with
        | None => [Lit "Error uploading file: "; FmtExn JSONDecodeError]
        | Some (VDict items) =>
            [Lit "Upload failed: ";
             Fmt (match lookup "message" items with
                  | Some m => m
                  | None => VStr "Unknown error"
                  end)]
        | Some _ => [Lit "Error uploading file: "; FmtExn (AttributeError "get")]
        end
      else [Lit "Upload failed with status code "; Fmt (VInt (status_code r))]
  end.

(** The processing error a poll gets to see: the truthy [error] field of a
    progress answer with status 200 and a JSON object, asked for because
    the existence check was answered with a status other than 200. *)
Definition processing_error (check probe : outcome) : option value :=
  match check with
  | Reply r =>
      if status_code r =? 200 then None
      else
        match probe with
        | Reply r' =>
            if status_code r' =? 200 then
              match json_body r' with
              | Some (VDict items) =>
                  if truthy (field "error" items) then Some (field "error" items) else None
              | _ => None
              end
            else None
        | Failure _ => None
        end
  | Failure _ => None
  end.

(** * Properties *)

Lemma is_200_Reply o :
  is_200 o = true <-> exists r, o = Reply r /\ status_code r = 200.
Proof.
  destruct o as [why | r]; simpl.
  - split; [discriminate | intros (r & H & _); discriminate].
  - rewrite Z.eqb_eq. split.
    + intros H. exists r. auto.
    + intros (r' & H & H'). injection H as ->. exact H'.
Qed.

(** ** Rules for the judgements: each is closed under the combinators. *)

Section Rules.

Context {A B : Type}.

Lemma safe_tame (m : M A) : safe m -> tame m.
Proof.
  intros H w e E. destruct (H w) as [a Ha]. congruence.
Qed.

Lemma safe_ret (a : A) : safe (ret a).
Proof. intros w. exists a. reflexivity. Qed.

Lemma tame_raise (e : exn) : is_Exception e = true -> tame (@raise A e).
Proof. intros H w e' E. simpl in E. congruence. Qed.

Lemma safe_bind (m : M A) (k : A -> M B) :
  safe m -> (forall a, safe (k a)) -> safe (bind m k).
Proof.
  intros Hm Hk w. unfold bind.
  destruct (Hm w) as [a Ha]. destruct (m w) as [[a' | e] w']; simpl in Ha.
  - apply Hk.
  - discriminate.
Qed.

Lemma tame_bind (m : M A) (k : A -> M B) :
  tame m -> (forall a, tame (k a)) -> tame (bind m k).
Proof.
  intros Hm Hk w e. unfold bind.
  specialize (Hm w). destruct (m w) as [[a | e'] w']; simpl in *.
  - apply Hk.
  - intros [= <-]. apply Hm. reflexivity.
Qed.

Lemma safe_try_except (m : M A) (h : exn -> M A) :
  tame m -> (forall e, safe (h e)) -> safe (try_except m h).
Proof.
  intros Hm Hh w. unfold try_except.
  specialize (Hm w). destruct (m w) as [[a | e] w']; simpl in *.
  - exists a. reflexivity.
  - rewrite (Hm e eq_refl). apply Hh.
Qed.

Lemma safe_try_except_all (m h : M A) : safe h -> safe (try_except_all m h).
Proof.
  intros Hh w. unfold try_except_all.
  destruct (m w) as [[a | e] w']; simpl.
  - exists a. reflexivity.
  - apply Hh.
Qed.

Variable X : Type.
Variable f : world -> X.

Lemma keeps_ret (a : A) : keeps f (ret a).
Proof. intros w. reflexivity. Qed.

Lemma keeps_raise (e : exn) : keeps f (@raise A e).
Proof. intros w. reflexivity. Qed.

Lemma keeps_bind (m : M A) (k : A -> M B) :
  keeps f m -> (forall a, keeps f (k a)) -> keeps f (bind m k).
Proof.
  intros Hm Hk w. unfold bind.
  specialize (Hm w). destruct (m w) as [[a | e] w']; simpl in *.
  - rewrite Hk. exact Hm.
  - exact Hm.
Qed.

Lemma keeps_try_except (m : M A) (h : exn -> M A) :
  keeps f m -> (forall e, keeps f (h e)) -> keeps f (try_except m h).
Proof.
  intros Hm Hh w. unfold try_except.
  specialize (Hm w). destruct (m w) as [[a | e] w']; simpl in *.
  - exact Hm.
  - destruct (is_Exception e); simpl; [rewrite Hh |]; exact Hm.
Qed.

Lemma keeps_try_except_all (m h : M A) :
  keeps f m -> keeps f h -> keeps f (try_except_all m h).
Proof.
  intros Hm Hh w. unfold try_except_all.
  specialize (Hm w). destruct (m w) as [[a | e] w']; simpl in *.
  - exact Hm.
  - rewrite Hh. exact Hm.
Qed.

End Rules.

Lemma safe_st e : safe (st e).
Proof. intros w. exists tt. reflexivity. Qed.

Lemma safe_append r : safe (append r).
Proof. intros w. exists tt. reflexivity. Qed.

Lemma tame_json r : tame (json r).
Proof.
  unfold json. destruct (json_body r).
  - apply safe_tame, safe_ret.
  - apply tame_raise. reflexivity.
Qed.

Lemma tame_py_get v key default : tame (py_get v key default).
Proof.
  destruct v; simpl; try (apply tame_raise; reflexivity).
  destruct (lookup key items); apply safe_tame, safe_ret.
Qed.

Lemma tame_perform net rq : tame (perform net rq).
Proof.
  intros w e. unfold perform. destruct (net _ rq); simpl.
  - intros [= <-]. reflexivity.
  - discriminate.
Qed.

Lemma keeps_json {X} (f : world -> X) r : keeps f (json r).
Proof. unfold json. destruct (json_body r); [apply keeps_ret | apply keeps_raise]. Qed.

Lemma keeps_py_get {X} (f : world -> X) v key default : keeps f (py_get v key default).
Proof.
  destruct v; simpl; try apply keeps_raise.
  destruct (lookup key items); apply keeps_ret.
Qed.

(** The session list is touched by [append] alone. *)
Lemma files_st e : keeps uploaded_files (st e).
Proof. intros w. reflexivity. Qed.

Lemma files_perform net rq : keeps uploaded_files (perform net rq).
Proof. intros w. unfold perform. destruct (net _ rq); reflexivity. Qed.

(** A request leaves the page alone; drawing an element sends nothing. *)
Lemma page_perform net rq : keeps page (perform net rq).
Proof. intros w. unfold perform. destruct (net _ rq); reflexivity. Qed.

Lemma sent_st e : keeps sent (st e).
Proof. intros w. reflexivity. Qed.

(** Case analysis on the test of a conditional or on a matched value. *)
Ltac split_cases :=
  match goal with
  | |- context [if ?b then _ else _] => destruct b
  | |- context [match ?x with _ => _ end] => destruct x
  end.

(** Discharges [tame] and [safe] goals by following the program text. *)
Ltac follow_tame :=
  repeat first
    [ progress intros
    | apply tame_bind
    | apply tame_perform
    | apply tame_json
    | apply tame_py_get
    | apply safe_tame; first [apply safe_ret | apply safe_st | apply safe_append]
    | apply safe_tame; apply safe_try_except
    | apply safe_tame; apply safe_try_except_all
    | apply safe_ret | apply safe_st | apply safe_append | apply safe_bind
    | split_cases ].

(** Discharges [keeps uploaded_files] goals in the same way. *)
Ltac follow_files :=
  repeat first
    [ progress intros
    | apply keeps_bind
    | apply keeps_try_except
    | apply keeps_try_except_all
    | apply keeps_ret
    | apply keeps_json
    | apply keeps_py_get
    | apply files_st
    | apply files_perform
    | split_cases ].

Section ClientFacts.

Variable net : backend.

Lemma safe_upload_and_process_file f dt dl :
  safe (upload_and_process_file net f dt dl).
Proof.
  unfold upload_and_process_file, requests_post.
  apply safe_try_except; follow_tame.
Qed.

Lemma safe_check_documentation_exists fid :
  safe (check_documentation_exists net fid).
Proof.
  unfold check_documentation_exists, requests_get.
  apply safe_try_except; follow_tame.
Qed.

Lemma safe_get_pdf_content fid : safe (get_pdf_content net fid).
Proof.
  unfold get_pdf_content. apply safe_try_except_all. apply safe_ret.
Qed.

Lemma files_upload_and_process_file f dt dl :
  keeps uploaded_files (upload_and_process_file net f dt dl).
Proof. unfold upload_and_process_file, requests_post. follow_files. Qed.

Lemma files_check_documentation_exists fid :
  keeps uploaded_files (check_documentation_exists net fid).
Proof. unfold check_documentation_exists, requests_get. follow_files. Qed.

Lemma files_get_pdf_content fid :
  keeps uploaded_files (get_pdf_content net fid).
Proof. unfold get_pdf_content, requests_get. follow_files. Qed.

End ClientFacts.

(** ** Submission *)

(** Unfolds a helper down to the backend's answers. *)
Ltac run_helper :=
  unfold returned, after, next_answer, second_answer,
    process_file, upload_and_process_file, check_documentation_exists, get_pdf_content,
    upload_request, documentation_url, status_url, download_pdf_url,
    try_except, try_except_all, bind, st, append, requests_post, requests_get, perform, json;
  simpl.

Section Submission.

Variable net : backend.

Lemma upload_returns f dt dl w :
  returned (upload_and_process_file net f dt dl) w
  = Ok (verdict (next_answer net w (upload_request f dt dl))).
Proof.
  run_helper. unfold verdict, field.
  destruct (net _ _) as [why | r]; simpl; [reflexivity |].
  destruct (status_code r =? 200); simpl.
  - destruct (json_body r) as [v |]; simpl; [| reflexivity].
    destruct v; simpl; try reflexivity.
    destruct (lookup "success" items) as [flag |]; simpl.
    + destruct (truthy flag); simpl;
        [destruct (lookup "file_id" items) | destruct (lookup "message" items)];
        reflexivity.
    + destruct (lookup "message" items); reflexivity.
  - destruct (json_body r); reflexivity.
Qed.

Lemma verdict_accepted r items :
  status_code r = 200 ->
  json_body r = Some (VDict items) ->
  truthy (field "success" items) = true ->
  verdict (Reply r) = VDict items.
Proof.
  intros Hcode Hjson Hflag. unfold verdict. rewrite Hcode, Hjson, Hflag. reflexivity.
Qed.

Lemma verdict_failed o : failed o -> verdict o = VNone.
Proof.
  intros H. unfold verdict.
  destruct H as [why | r Hcode | r items Hcode Hjson Hflag | r Hcode Hjson | r v Hcode Hjson Hv].
  - reflexivity.
  - apply Z.eqb_neq in Hcode. rewrite Hcode. reflexivity.
  - rewrite Hcode, Hjson, Hflag. reflexivity.
  - rewrite Hcode, Hjson. reflexivity.
  - rewrite Hcode, Hjson. simpl. destruct v; try reflexivity.
    exfalso. apply (Hv items). reflexivity.
Qed.

(** Conversely: an answer with no verdict is one of the failures. *)
Lemma failed_verdict o : verdict o = VNone -> failed o.
Proof.
  unfold verdict. destruct o as [why | r]; [intros _; constructor |].
  destruct (status_code r =? 200) eqn:Hcode.
  - apply Z.eqb_eq in Hcode.
    destruct (json_body r) as [v |] eqn:Hjson; [| intros _; now apply failed_malformed].
    destruct v; try (intros _; eapply failed_not_object; eauto; discriminate).
    destruct (truthy (field "success" items)) eqn:Hflag; [discriminate |].
    intros _. eapply failed_flag; eauto.
  - apply Z.eqb_neq in Hcode. intros _. now apply failed_status.
Qed.

(** An accepted object is never the empty one: it holds the flag. *)
Lemma truthy_verdict o items : verdict o = VDict items -> truthy (VDict items) = true.
Proof.
  unfold verdict. destruct o as [why | r]; [discriminate |].
  destruct (status_code r =? 200); [| discriminate].
  destruct (json_body r) as [v |]; [| discriminate].
  destruct v; try discriminate.
  destruct (truthy (field "success" items0)) eqn:Hflag; [| discriminate].
  intros [= <-]. destruct items0; [discriminate Hflag | reflexivity].
Qed.

Lemma verdict_shape o : verdict o = VNone \/ exists items, verdict o = VDict items.
Proof.
  unfold verdict. destruct o as [why | r]; auto.
  destruct (status_code r =? 200); auto.
  destruct (json_body r) as [v |]; auto.
  destruct v; auto.
  destruct (truthy _); eauto.
Qed.

(** Whatever it is given, the helper sends the upload and nothing else. *)
Lemma upload_sends f dt dl w :
  sent (after (upload_and_process_file net f dt dl) w)
  = sent w ++ [upload_request f dt dl].
Proof.
  run_helper.
  destruct (net _ _) as [why | r]; simpl; [reflexivity |].
  destruct (status_code r =? 200); simpl.
  - destruct (json_body r) as [v |]; simpl; [| reflexivity].
    destruct v; simpl; try reflexivity.
    destruct (lookup "success" items) as [flag |]; simpl.
    + destruct (truthy flag); simpl;
        [destruct (lookup "file_id" items) | destruct (lookup "message" items)];
        reflexivity.
    + destruct (lookup "message" items); reflexivity.
  - destruct (json_body r); reflexivity.
Qed.

(** The handler: it returns, and the session list grows by exactly the
    records the backend's answer calls for. *)
Lemma process_file_spec i f dt dl w :
  returned (process_file net i f dt dl) w = Ok tt /\
  uploaded_files (after (process_file net i f dt dl) w)
  = uploaded_files w ++ new_records i f dt dl (next_answer net w (upload_request f dt dl)).
Proof.
  unfold returned, after, new_records.
  destruct (process_file net i f dt dl w) as [res wf] eqn:Hp.
  unfold process_file, bind in Hp. simpl in Hp.
  set (w1 := {| uploaded_files := uploaded_files w;
                page := page w ++ [spinner [Lit "Uploading and processing file..."]];
                sent := sent w |}) in Hp.
  pose proof (upload_returns f dt dl w1) as Hret.
  pose proof (files_upload_and_process_file net f dt dl w1) as Hfiles.
  unfold returned in Hret.
  change (next_answer net w1 (upload_request f dt dl))
    with (next_answer net w (upload_request f dt dl)) in Hret.
  destruct (upload_and_process_file net f dt dl w1) as [[v | e] w2];
    simpl in Hret, Hfiles; [| discriminate].
  injection Hret as ->.
  destruct (verdict_shape (next_answer net w (upload_request f dt dl))) as [E | [items E]].
  - rewrite E in *. simpl in Hp. injection Hp as <- <-.
    simpl. rewrite app_nil_r. auto.
  - rewrite E in *. rewrite (truthy_verdict _ _ E) in Hp.
    unfold py_get, field, record_for in *.
    destruct (lookup "file_id" items); simpl in Hp; injection Hp as <- <-;
      simpl; rewrite Hfiles; auto.
Qed.

End Submission.

(** ** Status tracking and retrieval *)

Section Tracking.

Variable net : backend.

Lemma check_documentation_exists_returns file_id w :
  returned (check_documentation_exists net file_id) w
  = Ok (is_200 (next_answer net w (GET (documentation_url file_id)))).
Proof.
  run_helper.
  destruct (net _ _) as [why | r]; simpl; [reflexivity |].
  destruct (status_code r =? 200); simpl; [reflexivity |].
  destruct (net _ _) as [why' | r']; simpl; [reflexivity |].
  destruct (status_code r' =? 200); simpl; [| reflexivity].
  destruct (json_body r') as [v |]; simpl; [| reflexivity].
  destruct v; simpl; try reflexivity.
  repeat (destruct (lookup _ _); simpl); try reflexivity;
    repeat (destruct (truthy _); simpl); reflexivity.
Qed.

(** The existence check is the first request of a poll, and the only one
    to that endpoint; the progress query follows when the answer is not 200
    (and is an answer at all). *)
Lemma check_documentation_exists_sends file_id w :
  sent (after (check_documentation_exists net file_id) w)
  = sent w ++ GET (documentation_url file_id)
      :: match next_answer net w (GET (documentation_url file_id)) with
         | Reply r => if status_code r =? 200 then [] else [GET (status_url file_id)]
         | Failure _ => []
         end.
Proof.
  run_helper.
  destruct (net _ _) as [why | r]; simpl; [reflexivity |].
  destruct (status_code r =? 200); simpl; [reflexivity |].
  destruct (net _ _) as [why' | r']; simpl; [now rewrite <- app_assoc |].
  destruct (status_code r' =? 200); simpl; [| now rewrite <- app_assoc].
  destruct (json_body r') as [v |]; simpl; [| now rewrite <- app_assoc].
  destruct v; simpl; try now rewrite <- app_assoc.
  repeat (destruct (lookup _ _); simpl); try (now rewrite <- app_assoc);
    repeat (destruct (truthy _); simpl); now rewrite <- app_assoc.
Qed.

Lemma get_pdf_content_returns file_id w :
  returned (get_pdf_content net file_id) w
  = Ok (body_of (next_answer net w (GET (download_pdf_url file_id)))).
Proof.
  run_helper. destruct (net _ _) as [why | r]; simpl; [reflexivity |].
  destruct (status_code r =? 200); reflexivity.
Qed.

Lemma get_pdf_content_world file_id w :
  after (get_pdf_content net file_id) w
  = {| uploaded_files := uploaded_files w;
       page := page w;
       sent := sent w ++ [GET (download_pdf_url file_id)] |}.
Proof.
  run_helper. destruct (net _ _) as [why | r]; simpl; [reflexivity |].
  destruct (status_code r =? 200); reflexivity.
Qed.

Lemma polls_follow k : forall file_id w,
  Forall (fun p => snd p = Ok (is_200 (fst p))) (polls net k file_id w).
Proof.
  induction k as [| k IH]; intros file_id w; simpl.
  - constructor.
  - constructor.
    + simpl. apply check_documentation_exists_returns.
    + apply IH.
Qed.

Lemma polls_length k : forall file_id w, List.length (polls net k file_id w) = k.
Proof.
  induction k as [| k IH]; intros file_id w; simpl; [reflexivity |].
  rewrite IH. reflexivity.
Qed.

Lemma not_ready_page file_id w r :
  next_answer net w (GET (documentation_url file_id)) = Reply r ->
  status_code r <> 200 ->
  probe_failed (second_answer net w (GET (status_url file_id))) = true ->
  page (after (check_documentation_exists net file_id) w)
  = page w ++ not_ready_lines file_id r (second_answer net w (GET (status_url file_id))).
Proof.
  unfold probe_failed, not_ready_lines. run_helper.
  intros -> Hcode. apply Z.eqb_neq in Hcode. simpl. rewrite Hcode. simpl.
  rewrite length_app, Nat.add_comm. simpl.
  destruct (net _ _) as [why' | r']; simpl.
  - intros _. now rewrite <- !app_assoc.
  - intros H. apply negb_true_iff in H. rewrite H. simpl. now rewrite <- !app_assoc.
Qed.

End Tracking.


(** ** The script *)

Lemma subheadings_app p q : subheadings (p ++ q) = subheadings p ++ subheadings q.
Proof. unfold subheadings. apply flat_map_app. Qed.

(** Only a subheader changes the headings of the page. *)
Lemma headings_st e : subheadings [e] = [] -> keeps headings (st e).
Proof.
  intros H w. unfold headings. simpl. rewrite subheadings_app, H. apply app_nil_r.
Qed.

Lemma headings_perform net rq : keeps headings (perform net rq).
Proof. intros w. unfold headings. now rewrite page_perform. Qed.

Lemma headings_append r : keeps headings (append r).
Proof. intros w. reflexivity. Qed.

(** Discharges [keeps headings] goals by following the program text. *)
Ltac follow_headings :=
  repeat first
    [ progress intros
    | apply keeps_bind
    | apply keeps_try_except
    | apply keeps_try_except_all
    | apply keeps_ret
    | apply keeps_json
    | apply keeps_py_get
    | apply headings_st; reflexivity
    | apply headings_perform
    | apply headings_append
    | split_cases ].

(** What a computation that begins by emitting an element leaves behind. *)
Lemma bind_st {B} e (k : unit -> M B) w : bind (st e) k w = k tt (snd (st e w)).
Proof. reflexivity. Qed.

Lemma after_st_keeps {X B} (f : world -> X) e (k : unit -> M B) w :
  keeps f (k tt) -> f (snd (bind (st e) k w)) = f (snd (st e w)).
Proof. intros H. rewrite bind_st. apply H. Qed.

Lemma bind_safe {A B} (m : M A) (k : A -> M B) w :
  safe m -> exists a, fst (m w) = Ok a /\ bind m k w = k a (snd (m w)).
Proof.
  intros Hm. destruct (Hm w) as [a Ha]. exists a. split; [exact Ha |].
  unfold bind. destruct (m w) as [[a' | e] w']; simpl in *; congruence.
Qed.

Section Script.

Variable net : backend.

Lemma safe_create_download_button fid fmt label :
  safe (create_download_button fid fmt label).
Proof. apply safe_st. Qed.

Lemma safe_show_file r : safe (show_file net r).
Proof.
  unfold show_file.
  repeat (apply safe_bind; [apply safe_st | intros _]).
  apply safe_bind; [apply safe_check_documentation_exists | intros ready].
  destruct ready.
  - apply safe_bind; [apply safe_get_pdf_content | intros pdf].
    destruct (truthy_content pdf).
    + repeat (apply safe_bind; [apply safe_st | intros _]). apply safe_st.
    + apply safe_st.
  - apply safe_bind; [apply safe_st | intros _]. apply safe_st.
Qed.

Lemma files_show_file r : keeps uploaded_files (show_file net r).
Proof.
  unfold show_file.
  repeat (apply keeps_bind; [apply files_st | intros _]).
  apply keeps_bind; [apply files_check_documentation_exists | intros ready].
  destruct ready.
  - apply keeps_bind; [apply files_get_pdf_content | intros pdf].
    destruct (truthy_content pdf).
    + repeat (apply keeps_bind; [apply files_st | intros _]). apply files_st.
    + apply files_st.
  - apply keeps_bind; [apply files_st | intros _]. apply files_st.
Qed.

Lemma headings_check_documentation_exists fid :
  keeps headings (check_documentation_exists net fid).
Proof. unfold check_documentation_exists, requests_get. follow_headings. Qed.

Lemma headings_get_pdf_content fid : keeps headings (get_pdf_content net fid).
Proof. unfold get_pdf_content, requests_get. follow_headings. Qed.

Lemma headings_upload_and_process_file f dt dl :
  keeps headings (upload_and_process_file net f dt dl).
Proof. unfold upload_and_process_file, requests_post. follow_headings. Qed.

(** A record's turn in the loop writes its subheader, and no other. *)
Lemma headings_show_file r w :
  headings (snd (show_file net r w)) = headings w ++ [heading r].
Proof.
  unfold show_file. etransitivity.
  - apply after_st_keeps.
    apply keeps_bind; [apply headings_st; reflexivity | intros _].
    apply keeps_bind; [apply headings_check_documentation_exists | intros ready].
    destruct ready.
    + apply keeps_bind; [apply headings_get_pdf_content | intros pdf].
      destruct (truthy_content pdf).
      * unfold create_download_button, display_pdf.
        repeat (apply keeps_bind; [apply headings_st; reflexivity | intros _]).
        apply headings_st; reflexivity.
      * apply headings_st; reflexivity.
    + apply keeps_bind; [apply headings_st; reflexivity | intros _].
      apply headings_st; reflexivity.
  - unfold headings. simpl. rewrite subheadings_app. reflexivity.
Qed.

(** The loop: it returns, leaves the list alone, and takes the records in
    the order of the list. *)
Lemma for_each_show_file files : forall w,
  fst (for_each files (show_file net) w) = Ok tt /\
  uploaded_files (snd (for_each files (show_file net) w)) = uploaded_files w /\
  headings (snd (for_each files (show_file net) w)) = headings w ++ map heading files.
Proof.
  induction files as [| r files IH]; intros w; simpl.
  - rewrite app_nil_r. auto.
  - destruct (bind_safe (show_file net r) (fun _ => for_each files (show_file net)) w
                (safe_show_file r)) as ([] & _ & ->).
    destruct (IH (snd (show_file net r w))) as (Hret & Hfiles & Hheads).
    rewrite Hret, Hfiles, Hheads, files_show_file, headings_show_file, <- app_assoc.
    auto.
Qed.

Local Arguments for_each : simpl never.

Lemma generated_documentation_spec i w :
  uploaded_files (snd (generated_documentation net i w)) = uploaded_files w /\
  (fst (generated_documentation net i w) = Ok tt \/
   fst (generated_documentation net i w) = Raise RerunException) /\
  (refresh_status_pressed i = false -> fst (generated_documentation net i w) = Ok tt) /\
  (fst (generated_documentation net i w) = Ok tt ->
   headings (snd (generated_documentation net i w)) = headings w ++ map heading (uploaded_files w)).
Proof.
  destruct (generated_documentation net i w) as [res wf] eqn:Hrun.
  unfold generated_documentation, st_button, session_state_uploaded_files, bind, st in Hrun.
  simpl in Hrun.
  destruct (uploaded_files w) as [| r files] eqn:E.
  - injection Hrun as <- <-. simpl. unfold headings. simpl.
    rewrite !subheadings_app. simpl. rewrite !app_nil_r. auto.
  - destruct (refresh_status_pressed i); simpl in Hrun.
    + injection Hrun as <- <-. simpl. repeat split; auto; discriminate.
    + match type of Hrun with
      | for_each ?l (show_file net) ?w1 = _ =>
          destruct (for_each_show_file l w1) as (Hret & Hfiles & Hheads)
      end.
      rewrite Hrun in Hret, Hfiles, Hheads. simpl in Hret, Hfiles, Hheads.
      simpl. rewrite Hret, Hfiles, Hheads. unfold headings. simpl.
      rewrite !subheadings_app. simpl. rewrite !app_nil_r. auto.
Qed.

End Script.

Section Runs.

Variable net : backend.

(** The widgets hand over what the interaction holds; drawing them sends
    nothing, adds no subheader and leaves the session list alone. *)
Lemma sidebar_inputs_spec i w :
  fst (sidebar_inputs i w)
  = Ok (chosen_doc_type i, chosen_file i,
        match chosen_file i with Some _ => Some (chosen_doc_level i) | None => None end) /\
  uploaded_files (snd (sidebar_inputs i w)) = uploaded_files w /\
  sent (snd (sidebar_inputs i w)) = sent w /\
  headings (snd (sidebar_inputs i w)) = headings w.
Proof.
  split; [| repeat split].
  - unfold sidebar_inputs, st_sidebar_selectbox, st_sidebar_file_uploader, bind, st,
      chosen_doc_type, chosen_doc_level.
    simpl. destruct (chosen_file i); simpl;
      repeat match goal with
             | |- context [if String.eqb ?a ?b then _ else _] =>
                 destruct (String.eqb a b); simpl
             end; reflexivity.
  - revert w. change (keeps uploaded_files (sidebar_inputs i)).
    unfold sidebar_inputs, st_sidebar_selectbox, st_sidebar_file_uploader.
    repeat first [progress intros | apply keeps_bind | apply keeps_ret
                 | apply files_st | split_cases].
  - revert w. change (keeps sent (sidebar_inputs i)).
    unfold sidebar_inputs, st_sidebar_selectbox, st_sidebar_file_uploader.
    repeat first [progress intros | apply keeps_bind | apply keeps_ret
                 | apply sent_st | split_cases].
  - revert w. change (keeps headings (sidebar_inputs i)).
    unfold sidebar_inputs, st_sidebar_selectbox, st_sidebar_file_uploader.
    repeat first [progress intros | apply keeps_bind | apply keeps_ret
                 | apply headings_st; reflexivity | split_cases].
Qed.

Lemma headings_process_file i f dt dl : keeps headings (process_file net i f dt dl).
Proof.
  unfold process_file.
  apply keeps_bind; [apply headings_st; reflexivity | intros _].
  apply keeps_bind; [apply headings_upload_and_process_file | intros result].
  destruct (truthy result); [| apply keeps_ret].
  apply keeps_bind; [apply keeps_py_get | intros id].
  apply keeps_bind; [apply headings_append | intros _].
  apply headings_st; reflexivity.
Qed.

Lemma process_file_button_spec i dt uf dl w :
  fst (process_file_button net i dt uf dl w) = Ok tt /\
  uploaded_files (snd (process_file_button net i dt uf dl w))
  = uploaded_files w ++
    match uf, dl with
    | Some f, Some l =>
        if process_file_pressed i
        then new_records i f dt l (next_answer net w (upload_request f dt l))
        else []
    | _, _ => []
    end /\
  headings (snd (process_file_button net i dt uf dl w)) = headings w.
Proof.
  unfold process_file_button.
  destruct uf as [f |]; [destruct dl as [l |] |];
    try (simpl; rewrite ?app_nil_r; auto; fail).
  unfold st_sidebar_button, bind, st. simpl.
  destruct (process_file_pressed i).
  - match goal with
    | |- context [process_file net i f dt l ?w1] =>
        destruct (process_file_spec net i f dt l w1) as [Hret Hfiles];
        pose proof (headings_process_file i f dt l w1) as Hheads
    end.
    unfold returned, after in Hret, Hfiles. simpl in Hfiles.
    rewrite Hret, Hfiles, Hheads.
    unfold headings. simpl. rewrite subheadings_app. simpl. rewrite app_nil_r. auto.
  - simpl. unfold headings. simpl. rewrite subheadings_app. simpl.
    rewrite !app_nil_r. auto.
Qed.

(** One pass of the script: it ends normally or with the rerun request
    (only when Refresh Status is pressed); the session list gains what was
    submitted, and nothing else changes it; a pass that ends normally has
    drawn one subheader per record, oldest first. *)
Lemma script_spec i w :
  uploaded_files (snd (script net i w)) = uploaded_files w ++ submitted net i w /\
  (fst (script net i w) = Ok tt \/ fst (script net i w) = Raise RerunException) /\
  (refresh_status_pressed i = false -> fst (script net i w) = Ok tt) /\
  (fst (script net i w) = Ok tt ->
   headings (snd (script net i w))
   = headings w ++ map heading (uploaded_files (snd (script net i w)))).
Proof.
  destruct (script net i w) as [res wf] eqn:Hrun.
  unfold script in Hrun. unfold bind at 1 in Hrun.
  destruct (sidebar_inputs_spec i w) as (H1 & F1 & S1 & G1).
  destruct (sidebar_inputs i w) as [r1 w1]. simpl in H1, F1, S1, G1. subst r1.
  unfold bind in Hrun.
  destruct (process_file_button_spec i (chosen_doc_type i) (chosen_file i)
              match chosen_file i with Some _ => Some (chosen_doc_level i) | None => None end
              w1) as (H2 & F2 & G2).
  destruct (process_file_button net i (chosen_doc_type i) (chosen_file i) _ w1) as [r2 w2].
  simpl in H2, F2, G2. subst r2.
  destruct (generated_documentation_spec net i w2) as (F3 & H3 & P3 & G3).
  rewrite Hrun in F3, H3, P3, G3. simpl in F3, H3, P3, G3. simpl.
  assert (Hsub : uploaded_files w2 = uploaded_files w ++ submitted net i w).
  { rewrite F2, F1. unfold submitted, next_answer. rewrite S1.
    destruct (chosen_file i); reflexivity. }
  repeat split; try assumption.
  - congruence.
  - intros E. rewrite (G3 E), G2, G1, F3. reflexivity.
Qed.

Lemma submitted_released i w : submitted net (released i) w = [].
Proof. unfold submitted, released. simpl. destruct (chosen_file i); reflexivity. Qed.

Lemma submitted_at_most_one i w : (List.length (submitted net i w) <= 1)%nat.
Proof.
  unfold submitted, new_records.
  destruct (chosen_file i); [| simpl; lia].
  destruct (process_file_pressed i); [| simpl; lia].
  destruct (verdict _); simpl; lia.
Qed.

(** One interaction, rerun included. *)
Lemma run_spec i w :
  fst (run net i w) = Ok tt /\
  uploaded_files (snd (run net i w)) = uploaded_files w ++ submitted net i w /\
  subheadings (page (snd (run net i w))) = map heading (uploaded_files (snd (run net i w))).
Proof.
  unfold run.
  destruct (script_spec i (new_page w)) as (F & H & P & G).
  destruct (script net i (new_page w)) as [[[] | e] w1]; simpl in F, H, P, G.
  - simpl. repeat split; [exact F | exact (G eq_refl)].
  - destruct H as [H | H]; [discriminate |]. injection H as ->.
    destruct (script_spec (released i) (new_page w1)) as (F' & _ & P' & G').
    specialize (P' eq_refl). specialize (G' P').
    rewrite submitted_released, app_nil_r in F'.
    repeat split; [exact P' | | exact G'].
    rewrite F'. exact F.
Qed.

Lemma session_spec steps : forall w,
  exists added, uploaded_files (session net steps w) = uploaded_files w ++ added.
Proof.
  induction steps as [| i steps IH]; intros w; simpl.
  - exists []. now rewrite app_nil_r.
  - destruct (IH (snd (run net i w))) as [added Hadded].
    destruct (run_spec i w) as (_ & Hrun & _).
    exists (submitted net i w ++ added).
    rewrite Hadded, Hrun, app_assoc. reflexivity.
Qed.

(** A record that is ready and whose PDF is empty or cannot be fetched. *)
Lemma show_file_unavailable r w r1 :
  next_answer net w (GET (documentation_url (file_id r))) = Reply r1 ->
  status_code r1 = 200 ->
  truthy_content (body_of (second_answer net w (GET (download_pdf_url (file_id r))))) = false ->
  show_file net r w
  = (Ok tt, {| uploaded_files := uploaded_files w;
               page := page w ++ unavailable r;
               sent := sent w ++ [GET (documentation_url (file_id r));
                                  GET (download_pdf_url (file_id r))] |}).
Proof.
  unfold show_file, unavailable. run_helper.
  intros -> Hcode. simpl. rewrite Hcode. simpl.
  rewrite length_app, Nat.add_comm. simpl.
  destruct (net _ _) as [why | r2]; simpl.
  - intros _. now rewrite <- !app_assoc.
  - destruct (status_code r2 =? 200); simpl.
    + intros E. rewrite E. simpl. now rewrite <- !app_assoc.
    + intros _. now rewrite <- !app_assoc.
Qed.

End Runs.

(** C1 (amended). When the backend answers the upload with status 200 and
    a JSON object whose success flag is true, the handler appends exactly
    one record to the session list, so its length grows by exactly one. The
    record's fileId is the [file_id] field of the answer as it came ([None]
    when the field is missing): it is non-empty whenever the backend's is,
    and the client does not check it. *)
Theorem accepted_upload_appends_one_record net i f dt dl w r items :
  next_answer net w (upload_request f dt dl) = Reply r ->
  status_code r = 200 ->
  json_body r = Some (VDict items) ->
  truthy (field "success" items) = true ->
  returned (process_file net i f dt dl) w = Ok tt /\
  uploaded_files (after (process_file net i f dt dl) w)
  = uploaded_files w ++ [record_for i f dt dl (field "file_id" items)] /\
  List.length (uploaded_files (after (process_file net i f dt dl) w))
  = S (List.length (uploaded_files w)) /\
  file_id (record_for i f dt dl (field "file_id" items)) = field "file_id" items.
Proof.
  intros Hans Hcode Hjson Hflag.
  destruct (process_file_spec net i f dt dl w) as [Hret Hfiles].
  unfold new_records in Hfiles.
  rewrite Hans, (verdict_accepted r items Hcode Hjson Hflag) in Hfiles.
  repeat split.
  - exact Hret.
  - exact Hfiles.
  - rewrite Hfiles, length_app. simpl. lia.
Qed.

Lemma accepted_upload_appends_one_record_witness :
  let net := net_accepting (VStr "abc123") in
  let i := press_process demo_file in
  uploaded_files (after (process_file net i demo_file "SOW" "Advanced") initial)
  = [record_for i demo_file "SOW" "Advanced" (VStr "abc123")].
Proof.
  intros net i.
  exact (proj1 (proj2
    (accepted_upload_appends_one_record net i demo_file "SOW" "Advanced" initial
       {| status_code := 200; content := [];
          json_body := Some (VDict [("success", VBool true); ("file_id", VStr "abc123")]) |}
       [("success", VBool true); ("file_id", VStr "abc123")]
       eq_refl eq_refl eq_refl eq_refl))).
Defined.

(** C1 as stated fails: the backend answers 200 with success true, and the
    record that is appended has an empty fileId, the empty string the
    backend sent, or [None] when it sent no id. *)
Lemma accepted_upload_with_empty_id :
  let i := press_process demo_file in
  let rq := upload_request demo_file "SOW" "Advanced" in
  next_answer (net_accepting (VStr EmptyString)) initial rq
  = reply 200 [] (Some (VDict [("success", VBool true); ("file_id", VStr EmptyString)])) /\
  map file_id
    (uploaded_files
       (after (process_file (net_accepting (VStr EmptyString)) i demo_file "SOW" "Advanced")
          initial))
  = [VStr EmptyString] /\
  next_answer net_accepting_without_id initial rq
  = reply 200 [] (Some (VDict [("success", VBool true)])) /\
  map file_id
    (uploaded_files
       (after (process_file net_accepting_without_id i demo_file "SOW" "Advanced") initial))
  = [VNone] /\
  empty_id (VStr EmptyString) = true /\ empty_id VNone = true.
Proof.
  repeat split; reflexivity.
Qed.

(** C2. A submission fails when the call raises (timeout, refused
    connection), when the status is not 200, when a 200 carries a false or
    missing success flag, or when a 200 carries a body that is not a JSON
    object. In each case the helper returns [None], the handler returns
    without creating a record, and the session list is what it was. *)
Theorem failed_submission_leaves_session_list net i f dt dl w :
  failed (next_answer net w (upload_request f dt dl)) ->
  returned (upload_and_process_file net f dt dl) w = Ok VNone /\
  returned (process_file net i f dt dl) w = Ok tt /\
  uploaded_files (after (process_file net i f dt dl) w) = uploaded_files w.
Proof.
  intros Hfail.
  destruct (process_file_spec net i f dt dl w) as [Hret Hfiles].
  unfold new_records in Hfiles.
  rewrite (verdict_failed _ Hfail), app_nil_r in Hfiles.
  rewrite upload_returns, (verdict_failed _ Hfail). auto.
Qed.

Lemma failed_submission_leaves_session_list_witness :
  failed (next_answer net_down one_record (upload_request demo_file "SOW" "Advanced")) /\
  uploaded_files
    (after (process_file net_down (press_process demo_file) demo_file "SOW" "Advanced")
       one_record)
  = [abc123].
Proof.
  split.
  - apply failed_network.
  - exact (proj2 (proj2
      (failed_submission_leaves_session_list net_down (press_process demo_file) demo_file
         "SOW" "Advanced" one_record (failed_network "connection refused")))).
Defined.

(** C5 as stated fails: nothing is validated before the network call. An
    empty file goes through the script, is sent, and gets a record; given an
    empty text file and a type and level outside the enumerations, the
    handler sends them all the same and creates a record. *)
Lemma empty_file_and_unknown_parameters_are_sent :
  let net := net_accepting (VStr "abc123") in
  getvalue empty_file = [] /\
  hd_error (sent (snd (run net (press_process empty_file) initial)))
  = Some (upload_request empty_file "SOW" "Advanced") /\
  map file_id (uploaded_files (snd (run net (press_process empty_file) initial)))
  = [VStr "abc123"] /\
  ~ In "XYZ" doc_type_options /\
  ~ In "Expert" doc_level_options /\
  sent (after (process_file net (press_process notes_txt) notes_txt "XYZ" "Expert") initial)
  = [upload_request notes_txt "XYZ" "Expert"] /\
  map file_id
    (uploaded_files
       (after (process_file net (press_process notes_txt) notes_txt "XYZ" "Expert") initial))
  = [VStr "abc123"].
Proof.
  repeat split; try reflexivity.
  - intros [H | [H | [H | []]]]; discriminate.
  - intros [H | [H | [H | []]]]; discriminate.
Qed.

(** C5 (amended). Submission validates nothing of its own: for every file,
    empty or not and of any type, and every docType and docLevel, the helper
    sends exactly one request, the POST to /upload carrying the file and both
    parameters as given, and the handler adds the record the backend's answer
    calls for. DocType and docLevel are constrained by the select boxes
    alone, which hold one of their listed options. *)
Theorem submission_sends_whatever_it_is_given net i f dt dl w :
  sent (after (upload_and_process_file net f dt dl) w)
  = sent w ++ [upload_request f dt dl] /\
  uploaded_files (after (process_file net i f dt dl) w)
  = uploaded_files w ++ new_records i f dt dl (next_answer net w (upload_request f dt dl)) /\
  returned (st_sidebar_selectbox "Select Document Type" doc_type_options (doc_type_index i)) w
  = Ok (chosen_doc_type i) /\
  In (chosen_doc_type i) doc_type_options /\
  returned (st_sidebar_selectbox "Select Documentation Level" doc_level_options
              (doc_level_index i)) w
  = Ok (chosen_doc_level i) /\
  In (chosen_doc_level i) doc_level_options.
Proof.
  split; [apply upload_sends |].
  split; [apply process_file_spec |].
  split; [reflexivity |].
  split.
  - unfold chosen_doc_type. destruct (doc_type_index i) as [| [| [| n]]]; simpl; auto.
    destruct n; simpl; auto.
  - split; [reflexivity |].
    unfold chosen_doc_level. destruct (doc_level_index i) as [| [| [| n]]]; simpl; auto.
    destruct n; simpl; auto.
Qed.
(** C3. [check_documentation_exists] returns true if and only if the GET to
    the existence endpoint for that id comes back with status exactly 200;
    every other status, and a call that fails, give false. The existence
    check is the first request of the poll and the only one to that
    endpoint. *)
Theorem ready_iff_status_200 net file_id w :
  returned (check_documentation_exists net file_id) w
  = Ok (is_200 (next_answer net w (GET (documentation_url file_id)))) /\
  (returned (check_documentation_exists net file_id) w = Ok true <->
   exists r, next_answer net w (GET (documentation_url file_id)) = Reply r /\
             status_code r = 200) /\
  (returned (check_documentation_exists net file_id) w = Ok false <->
   ~ exists r, next_answer net w (GET (documentation_url file_id)) = Reply r /\
               status_code r = 200) /\
  sent (after (check_documentation_exists net file_id) w)
  = sent w ++ GET (documentation_url file_id)
      :: match next_answer net w (GET (documentation_url file_id)) with
         | Reply r => if status_code r =? 200 then [] else [GET (status_url file_id)]
         | Failure _ => []
         end.
Proof.
  pose proof (check_documentation_exists_returns net file_id w) as H.
  pose proof (is_200_Reply (next_answer net w (GET (documentation_url file_id)))) as Hiff.
  split; [exact H |]. rewrite H. repeat split.
  - intros [= E]. apply Hiff. exact E.
  - intros E. apply Hiff in E. rewrite E. reflexivity.
  - intros [= E] E'. apply Hiff in E'. congruence.
  - intros E. destruct (is_200 _); [| reflexivity].
    exfalso. apply E, Hiff. reflexivity.
  - apply check_documentation_exists_sends.
Qed.

(** C4. [get_pdf_content] returns exactly the bytes of the /download answer
    when its status is 200, and [None] for any other answer or a failed
    call. It sends that one request and touches neither the session list nor
    the page, so a repeated call for the same id, answered the same way,
    returns the same bytes. *)
Theorem pdf_is_the_served_body net file_id w :
  returned (get_pdf_content net file_id) w
  = Ok (body_of (next_answer net w (GET (download_pdf_url file_id)))) /\
  (forall r, next_answer net w (GET (download_pdf_url file_id)) = Reply r ->
             status_code r = 200 ->
             returned (get_pdf_content net file_id) w = Ok (Some (content r))) /\
  uploaded_files (after (get_pdf_content net file_id) w) = uploaded_files w /\
  page (after (get_pdf_content net file_id) w) = page w /\
  sent (after (get_pdf_content net file_id) w) = sent w ++ [GET (download_pdf_url file_id)] /\
  (forall w',
     next_answer net w' (GET (download_pdf_url file_id))
     = next_answer net w (GET (download_pdf_url file_id)) ->
     returned (get_pdf_content net file_id) w' = returned (get_pdf_content net file_id) w).
Proof.
  split; [apply get_pdf_content_returns |].
  split.
  { intros r Hans Hcode. rewrite get_pdf_content_returns, Hans. simpl.
    apply Z.eqb_eq in Hcode. rewrite Hcode. reflexivity. }
  rewrite get_pdf_content_world. simpl. repeat split.
  intros w' E. rewrite !get_pdf_content_returns, E. reflexivity.
Qed.

Lemma pdf_is_the_served_body_witness :
  returned (get_pdf_content net_serving (VStr "abc123"))
    (after (get_pdf_content net_serving (VStr "abc123")) initial)
  = returned (get_pdf_content net_serving (VStr "abc123")) initial.
Proof.
  exact (proj2 (proj2 (proj2 (proj2 (proj2
    (pdf_is_the_served_body net_serving (VStr "abc123") initial)))))
    (after (get_pdf_content net_serving (VStr "abc123")) initial) eq_refl).
Defined.

(** C6 as stated fails: the first poll is answered 200 and returns true, the
    second meets a refused connection and returns false. *)
Lemma ready_then_not_ready :
  map snd (polls net_up_then_down 2 (VStr "abc123") initial) = [Ok true; Ok false].
Proof. reflexivity. Qed.

(** C6 (amended). Each poll returns true exactly when the existence endpoint
    answers that poll with status 200: false on every poll before the first
    200, true at that poll, and true at each later poll the endpoint again
    answers with 200. The client keeps no memory of readiness, so a later
    answer other than 200, or a failed call, gives false again. *)
Theorem ready_follows_the_endpoint net k file_id w :
  List.length (polls net k file_id w) = k /\
  Forall (fun p => snd p = Ok (is_200 (fst p))) (polls net k file_id w).
Proof.
  split; [apply polls_length | apply polls_follow].
Qed.

(** C7. When the existence check is answered with a status other than 200,
    the poll returns false whatever becomes of the progress query. If that
    query fails (the call raises, or the status is not 200), nothing is
    raised and the page gains only plain text lines: the three lines of the
    poll and, for a call that raised, one line naming the exception. *)
Theorem failed_progress_query_is_harmless net file_id w r :
  next_answer net w (GET (documentation_url file_id)) = Reply r ->
  status_code r <> 200 ->
  returned (check_documentation_exists net file_id) w = Ok false /\
  (probe_failed (second_answer net w (GET (status_url file_id))) = true ->
   page (after (check_documentation_exists net file_id) w)
   = page w ++ not_ready_lines file_id r (second_answer net w (GET (status_url file_id))) /\
   forallb informational
     (not_ready_lines file_id r (second_answer net w (GET (status_url file_id)))) = true).
Proof.
  intros Hans Hcode. split.
  - rewrite check_documentation_exists_returns, Hans. simpl.
    apply Z.eqb_neq in Hcode. rewrite Hcode. reflexivity.
  - intros Hprobe. split; [now apply not_ready_page |].
    unfold not_ready_lines. destruct (second_answer _ _ _); reflexivity.
Qed.

Lemma failed_progress_query_is_harmless_witness :
  returned (check_documentation_exists net_not_ready_probe_down (VStr "abc123")) initial
  = Ok false /\
  page (after (check_documentation_exists net_not_ready_probe_down (VStr "abc123")) initial)
  = not_ready_lines (VStr "abc123")
      {| status_code := 404; content := []; json_body := None |} (Failure "timed out").
Proof.
  pose proof (failed_progress_query_is_harmless net_not_ready_probe_down (VStr "abc123")
                initial {| status_code := 404; content := []; json_body := None |}
                eq_refl ltac:(discriminate)) as [Hret Hpage].
  split; [exact Hret | exact (proj1 (Hpage eq_refl))].
Defined.

(** C8. The session list only ever grows at its end. The three helpers
    leave it as it is; one interaction, rerun included, appends the record
    of an accepted upload (at most one) and changes nothing else; over a
    whole session the list at the start stays a prefix of the list at the
    end. The render loop takes the records in list order, oldest first: the
    subheaders on the page are those of the records, in that order. *)
Theorem session_list_is_append_only net :
  (forall f dt dl, keeps uploaded_files (upload_and_process_file net f dt dl)) /\
  (forall file_id, keeps uploaded_files (check_documentation_exists net file_id)) /\
  (forall file_id, keeps uploaded_files (get_pdf_content net file_id)) /\
  (forall i w,
     uploaded_files (snd (run net i w)) = uploaded_files w ++ submitted net i w /\
     (List.length (submitted net i w) <= 1)%nat) /\
  (forall steps w,
     exists added, uploaded_files (session net steps w) = uploaded_files w ++ added) /\
  (forall i w,
     subheadings (page (snd (run net i w)))
     = map heading (uploaded_files (snd (run net i w)))).
Proof.
  split; [intros; apply files_upload_and_process_file |].
  split; [intros; apply files_check_documentation_exists |].
  split; [intros; apply files_get_pdf_content |].
  split; [| split].
  - intros i w. split; [apply run_spec | apply submitted_at_most_one].
  - intros steps w. apply session_spec.
  - intros i w. apply run_spec.
Qed.

(** C9. Whatever the backend does, each operation returns a value and
    raises nothing: the upload helper returns the accepted object or [None],
    the handler returns, the readiness check returns a boolean, the fetch
    returns the body or [None], and a whole run of the script ends normally.
    A failed call gives [None], [False] and [None] respectively. *)
Theorem no_operation_raises net i f dt dl file_id w :
  returned (upload_and_process_file net f dt dl) w
  = Ok (verdict (next_answer net w (upload_request f dt dl))) /\
  returned (process_file net i f dt dl) w = Ok tt /\
  returned (check_documentation_exists net file_id) w
  = Ok (is_200 (next_answer net w (GET (documentation_url file_id)))) /\
  returned (get_pdf_content net file_id) w
  = Ok (body_of (next_answer net w (GET (download_pdf_url file_id)))) /\
  fst (run net i w) = Ok tt /\
  (forall why, verdict (Failure why) = VNone /\
               is_200 (Failure why) = false /\
               body_of (Failure why) = None).
Proof.
  split; [apply upload_returns |].
  split; [apply process_file_spec |].
  split; [apply check_documentation_exists_returns |].
  split; [apply get_pdf_content_returns |].
  split; [apply run_spec |].
  intros why. repeat split.
Qed.

(** C10. For a record whose existence check answers 200, a download that
    answers 200 with an empty body makes the fetch return the empty byte
    string, and the record is drawn as unavailable: subheader, id, the three
    lines of the check and the warning, with no download button and no
    preview. That is the very page a failed fetch gives. *)
Theorem empty_pdf_is_shown_as_unavailable net r w r1 r2 :
  next_answer net w (GET (documentation_url (file_id r))) = Reply r1 ->
  status_code r1 = 200 ->
  second_answer net w (GET (download_pdf_url (file_id r))) = Reply r2 ->
  status_code r2 = 200 ->
  content r2 = [] ->
  returned (get_pdf_content net (file_id r))
    (after (check_documentation_exists net (file_id r)) w) = Ok (Some []) /\
  returned (show_file net r) w = Ok tt /\
  page (after (show_file net r) w) = page w ++ unavailable r /\
  (forall net',
     next_answer net' w (GET (documentation_url (file_id r))) = Reply r1 ->
     body_of (second_answer net' w (GET (download_pdf_url (file_id r)))) = None ->
     page (after (show_file net' r) w) = page (after (show_file net r) w)).
Proof.
  intros Hans1 Hcode1 Hans2 Hcode2 Hbody.
  assert (Hfetch : body_of (second_answer net w (GET (download_pdf_url (file_id r))))
                   = Some []).
  { rewrite Hans2. simpl. apply Z.eqb_eq in Hcode2. rewrite Hcode2, Hbody. reflexivity. }
  assert (Hshow := show_file_unavailable net r w r1 Hans1 Hcode1).
  rewrite Hfetch in Hshow. specialize (Hshow eq_refl).
  split; [| split; [| split]].
  - rewrite get_pdf_content_returns. unfold next_answer.
    rewrite check_documentation_exists_sends, Hans1.
    apply Z.eqb_eq in Hcode1. rewrite Hcode1, length_app, Nat.add_comm. simpl.
    exact (f_equal Ok Hfetch).
  - unfold returned. rewrite Hshow. reflexivity.
  - unfold after. rewrite Hshow. reflexivity.
  - intros net' Hans1' Hnone.
    assert (Hshow' := show_file_unavailable net' r w r1 Hans1' Hcode1).
    rewrite Hnone in Hshow'. specialize (Hshow' eq_refl).
    unfold after. rewrite Hshow, Hshow'. reflexivity.
Qed.

Lemma empty_pdf_is_shown_as_unavailable_witness :
  page (after (show_file net_empty_pdf abc123) one_record) = unavailable abc123.
Proof.
  exact (proj1 (proj2 (proj2
    (empty_pdf_is_shown_as_unavailable net_empty_pdf abc123 one_record
       {| status_code := 200; content := []; json_body := None |}
       {| status_code := 200; content := []; json_body := None |}
       eq_refl eq_refl eq_refl eq_refl eq_refl)))).
Defined.

(** The scenario of the specification, run through the script: demo.mp3 is
    submitted as SOW, Advanced and recorded as abc123; two renders find it
    not ready, the third finds it ready and previews the served bytes. *)
Example end_to_end_scenario :
  let w1 := snd (run net_scenario (press_process demo_file) initial) in
  let w2 := snd (run net_scenario just_look w1) in
  let w3 := snd (run net_scenario just_look w2) in
  uploaded_files w3
  = [record_for (press_process demo_file) demo_file "SOW" "Advanced" (VStr "abc123")] /\
  last (page w1) (button EmptyString)
  = info [Lit "Documentation is not ready yet. Please wait or refresh."] /\
  last (page w2) (button EmptyString)
  = info [Lit "Documentation is not ready yet. Please wait or refresh."] /\
  last (page w3) (button EmptyString)
  = markdown [Lit "<iframe src="; Lit dquote; Lit "data:application/pdf;base64,";
              B64 pdf_bytes; Lit dquote; Lit " class="; Lit dquote; Lit "pdf-viewer";
              Lit dquote; Lit "></iframe>"].
Proof.
  cbv zeta. repeat split; vm_compute; reflexivity.
Qed.

(** * Further properties of the helpers and of the script *)

(** ** What the page shows *)

Lemma picked_st g e : g e = false -> keeps (picked g) (st e).
Proof.
  intros H w. unfold picked. simpl. rewrite filter_app. simpl. rewrite H. apply app_nil_r.
Qed.

Lemma picked_perform g net rq : keeps (picked g) (perform net rq).
Proof. intros w. unfold picked. now rewrite page_perform. Qed.

Lemma picked_append g r : keeps (picked g) (append r).
Proof. intros w. reflexivity. Qed.

Lemma keeps_for_each {X A} (f : world -> X) (body : A -> M unit) xs :
  (forall x, keeps f (body x)) -> keeps f (for_each xs body).
Proof.
  intros H. induction xs as [| x xs IH]; simpl.
  - apply keeps_ret.
  - apply keeps_bind; [apply H | intros _; exact IH].
Qed.

(** Discharges [keeps (picked g)] goals by following the program text. *)
Ltac follow_picked :=
  repeat first
    [ progress intros
    | apply keeps_bind
    | apply keeps_try_except
    | apply keeps_try_except_all
    | apply keeps_ret
    | apply keeps_json
    | apply keeps_py_get
    | apply picked_st; reflexivity
    | apply picked_perform
    | apply picked_append
    | split_cases ].

(** Brings a page built by successive appends into one list, and filters it. *)
Ltac tidy_page :=
  unfold picked; simpl; rewrite ?filter_app; simpl; rewrite <- ?app_assoc; simpl;
  rewrite ?app_nil_r.

Section Display.

Variable net : backend.

Lemma upload_page_errors f dt dl w :
  failed (next_answer net w (upload_request f dt dl)) ->
  picked is_error (after (upload_and_process_file net f dt dl) w)
  = picked is_error w ++ [error (complaint (next_answer net w (upload_request f dt dl)))].
Proof.
  unfold complaint. run_helper. intros H.
  inversion H as [why E | r Hcode E | r items Hcode Hjson Hflag E
                 | r Hcode Hjson E | r v Hcode Hjson Hv E]; simpl.
  - tidy_page. reflexivity.
  - apply Z.eqb_neq in Hcode. rewrite Hcode. simpl.
    destruct (json_body r); tidy_page; reflexivity.
  - rewrite Hcode, Hjson. simpl. unfold field in Hflag.
    destruct (lookup "success" items); simpl; [rewrite Hflag |]; simpl;
      destruct (lookup "message" items); tidy_page; reflexivity.
  - rewrite Hcode, Hjson. simpl. tidy_page. reflexivity.
  - rewrite Hcode, Hjson. simpl. destruct v; simpl; try (tidy_page; reflexivity).
    exfalso. apply (Hv items). reflexivity.
Qed.

Lemma success_upload_and_process_file f dt dl :
  keeps (picked is_success) (upload_and_process_file net f dt dl).
Proof. unfold upload_and_process_file, requests_post. follow_picked. Qed.

Lemma errors_accepted_upload f dt dl w r items :
  next_answer net w (upload_request f dt dl) = Reply r ->
  status_code r = 200 ->
  json_body r = Some (VDict items) ->
  truthy (field "success" items) = true ->
  picked is_error (after (upload_and_process_file net f dt dl) w) = picked is_error w.
Proof.
  intros Hans Hcode Hjson Hflag. revert Hans. run_helper. intros ->. simpl.
  rewrite Hcode, Hjson. simpl. unfold field in Hflag.
  destruct (lookup "success" items); simpl; [rewrite Hflag | discriminate]; simpl.
  destruct (lookup "file_id" items); tidy_page; reflexivity.
Qed.

Lemma progress_page file_id w r r' items :
  next_answer net w (GET (documentation_url file_id)) = Reply r ->
  status_code r <> 200 ->
  second_answer net w (GET (status_url file_id)) = Reply r' ->
  status_code r' = 200 ->
  json_body r' = Some (VDict items) ->
  page (after (check_documentation_exists net file_id) w)
  = page w ++ progress_lines file_id r items.
Proof.
  unfold progress_lines, field. run_helper.
  intros -> Hcode. apply Z.eqb_neq in Hcode. simpl. rewrite Hcode. simpl.
  rewrite length_app, Nat.add_comm. simpl.
  intros -> Hcode' Hjson. simpl. rewrite Hcode', Hjson. simpl.
  destruct (lookup "status" items); simpl;
    destruct (lookup "progress" items); simpl;
    destruct (lookup "current_stage" items); simpl;
    destruct (lookup "error" items) as [e |]; simpl;
    try destruct (truthy e); simpl; rewrite <- ?app_assoc; reflexivity.
Qed.

End Display.

(** ** A record's turn in the loop *)

Section Turn.

Variable net : backend.

Lemma sent_create_download_button fid fmt label :
  keeps sent (create_download_button fid fmt label).
Proof. apply sent_st. Qed.

(** A record that is ready and whose PDF came with a body. *)
Lemma show_file_available r w r1 r2 :
  next_answer net w (GET (documentation_url (file_id r))) = Reply r1 ->
  status_code r1 = 200 ->
  second_answer net w (GET (download_pdf_url (file_id r))) = Reply r2 ->
  status_code r2 = 200 ->
  truthy_bytes (content r2) = true ->
  show_file net r w
  = (Ok tt, {| uploaded_files := uploaded_files w;
               page := page w ++ available r (content r2);
               sent := sent w ++ [GET (documentation_url (file_id r));
                                  GET (download_pdf_url (file_id r))] |}).
Proof.
  unfold show_file, available, download_button, preview, create_download_button, display_pdf.
  run_helper.
  intros -> Hcode. simpl. rewrite Hcode. simpl.
  rewrite length_app, Nat.add_comm. simpl.
  intros -> Hcode' Hbody. simpl. rewrite Hcode'. simpl. rewrite Hbody. simpl.
  now rewrite <- !app_assoc.
Qed.

(** The turn of a record that is not ready. *)
Lemma show_file_not_ready r w :
  is_200 (next_answer net w (GET (documentation_url (file_id r)))) = false ->
  fst (show_file net r w) = Ok tt /\
  sent (snd (show_file net r w))
  = sent w ++ requests_of r (next_answer net w (GET (documentation_url (file_id r)))) /\
  exists lines,
    page (snd (show_file net r w))
    = page w
      ++ [subheader [Lit "File: "; Fmt (VStr (filename r))];
          markdown [Lit "File ID: `"; Fmt (file_id r); Lit "`"]]
      ++ lines
      ++ [spinner [Lit "Documentation is being generated..."];
          info [Lit "Documentation is not ready yet. Please wait or refresh."]].
Proof.
  intros Hnot.
  destruct (show_file net r w) as [res wf] eqn:Hrun.
  unfold show_file, bind in Hrun. simpl in Hrun.
  set (w1 := {| uploaded_files := uploaded_files w;
                page := (page w ++ [subheader [Lit "File: "; Fmt (VStr (filename r))]])
                        ++ [markdown [Lit "File ID: `"; Fmt (file_id r); Lit "`"]];
                sent := sent w |}) in Hrun.
  pose proof (check_documentation_exists_returns net (file_id r) w1) as Hret.
  pose proof (check_documentation_exists_sends net (file_id r) w1) as Hsent.
  assert (Hpage : exists lines,
             page (after (check_documentation_exists net (file_id r)) w1)
             = page w1 ++ lines).
  { clear. generalize w1. intros w0. run_helper.
    destruct (net _ _) as [why | a]; simpl; [eexists; now rewrite <- !app_assoc |].
    destruct (status_code a =? 200); simpl; [eexists; now rewrite <- !app_assoc |].
    destruct (net _ _) as [why' | a']; simpl; [eexists; now rewrite <- !app_assoc |].
    destruct (status_code a' =? 200); simpl; [| eexists; now rewrite <- !app_assoc].
    destruct (json_body a') as [v |]; simpl; [| eexists; now rewrite <- !app_assoc].
    destruct v; simpl; try (eexists; now rewrite <- !app_assoc).
    repeat (destruct (lookup _ _); simpl);
      repeat (destruct (truthy _); simpl); eexists; now rewrite <- !app_assoc. }
  unfold returned, after in Hret, Hsent, Hpage.
  change (next_answer net w1 (GET (documentation_url (file_id r))))
    with (next_answer net w (GET (documentation_url (file_id r)))) in Hret, Hsent.
  destruct Hpage as [lines Hpage].
  destruct (check_documentation_exists net (file_id r) w1) as [[ready | e] w2];
    simpl in Hret, Hsent, Hpage; [| discriminate].
  injection Hret as ->. rewrite Hnot in Hrun. injection Hrun as <- <-. simpl.
  split; [reflexivity |]. split.
  - rewrite Hsent. unfold requests_of.
    destruct (next_answer net w _) as [why | a]; [reflexivity |].
    simpl in Hnot. rewrite Hnot. reflexivity.
  - exists lines. rewrite Hpage. unfold w1. simpl. now rewrite <- !app_assoc.
Qed.

(** What a turn sends, whatever the answers: the existence check, then the
    download of the PDF if the record is ready, or the progress query if it
    is not (and the check was answered at all). *)
Lemma show_file_sends r w :
  sent (snd (show_file net r w))
  = sent w ++ requests_of r (next_answer net w (GET (documentation_url (file_id r)))).
Proof.
  destruct (is_200 (next_answer net w (GET (documentation_url (file_id r))))) eqn:Hready.
  - apply is_200_Reply in Hready. destruct Hready as (r1 & Hans & Hcode).
    unfold requests_of. rewrite Hans. apply Z.eqb_eq in Hcode. rewrite Hcode.
    apply Z.eqb_eq in Hcode.
    destruct (truthy_content
                (body_of (second_answer net w (GET (download_pdf_url (file_id r))))))
      eqn:Hbody.
    + unfold body_of in Hbody.
      destruct (second_answer net w _) as [why | r2] eqn:Hans2; [discriminate |].
      destruct (status_code r2 =? 200) eqn:Hcode2; [| discriminate].
      apply Z.eqb_eq in Hcode2.
      rewrite (show_file_available r w r1 r2 Hans Hcode Hans2 Hcode2 Hbody). reflexivity.
    + rewrite (show_file_unavailable net r w r1 Hans Hcode Hbody). reflexivity.
  - apply show_file_not_ready. exact Hready.
Qed.

Lemma requests_of_bounds r o :
  (1 <= List.length (requests_of r o) <= 2)%nat /\
  forallb (fun rq => negb (is_POST rq)) (requests_of r o) = true.
Proof.
  unfold requests_of. destruct o as [why | a]; simpl; [split; [lia | reflexivity] |].
  destruct (status_code a =? 200); simpl; split; try lia; reflexivity.
Qed.

(** The loop over the records: at least one request and at most two for each,
    none of them an upload. *)
Lemma for_each_show_file_sends files : forall w,
  exists gets,
    sent (snd (for_each files (show_file net) w)) = sent w ++ gets /\
    (List.length files <= List.length gets <= 2 * List.length files)%nat /\
    forallb (fun rq => negb (is_POST rq)) gets = true.
Proof.
  induction files as [| r files IH]; intros w.
  - exists []. simpl. rewrite app_nil_r. repeat split; lia.
  - cbn [for_each].
    destruct (bind_safe (show_file net r) (fun _ => for_each files (show_file net)) w
                (safe_show_file net r)) as ([] & _ & ->).
    destruct (IH (snd (show_file net r w))) as (gets & Hsent & Hlen & Hget).
    pose proof (requests_of_bounds r
                  (next_answer net w (GET (documentation_url (file_id r))))) as [Hb Hg].
    exists (requests_of r (next_answer net w (GET (documentation_url (file_id r)))) ++ gets).
    rewrite Hsent, show_file_sends, app_assoc. split; [reflexivity |].
    rewrite length_app, forallb_app, Hg, Hget. cbn [List.length]. split; [lia | reflexivity].
Qed.

End Turn.

(** ** What a run sends *)

Lemma filter_none {A} (g : A -> bool) l :
  forallb (fun x => negb (g x)) l = true -> filter g l = [].
Proof.
  induction l as [| x l IH]; simpl; [reflexivity |].
  intros H. apply andb_true_iff in H. destruct H as [Hx Hl].
  apply negb_true_iff in Hx. rewrite Hx. apply IH, Hl.
Qed.

Section Traffic.

Variable net : backend.

Local Arguments for_each : simpl never.

Lemma process_file_sends i f dt dl w :
  sent (snd (process_file net i f dt dl w)) = sent w ++ [upload_request f dt dl].
Proof.
  destruct (process_file net i f dt dl w) as [res wf] eqn:Hp.
  unfold process_file, bind in Hp. simpl in Hp.
  set (w1 := {| uploaded_files := uploaded_files w;
                page := page w ++ [spinner [Lit "Uploading and processing file..."]];
                sent := sent w |}) in Hp.
  pose proof (upload_returns net f dt dl w1) as Hret.
  pose proof (upload_sends net f dt dl w1) as Hsent.
  unfold returned, after in Hret, Hsent.
  destruct (upload_and_process_file net f dt dl w1) as [[v | e] w2];
    simpl in Hret, Hsent; [| discriminate].
  injection Hret as ->.
  destruct (verdict_shape (next_answer net w1 (upload_request f dt dl))) as [E | [items E]].
  - rewrite E in Hp. simpl in Hp. injection Hp as <- <-. exact Hsent.
  - rewrite E in Hp. rewrite (truthy_verdict _ _ E) in Hp. unfold py_get in Hp.
    destruct (lookup "file_id" items); simpl in Hp; injection Hp as <- <-; exact Hsent.
Qed.

Lemma process_file_button_sends i dt uf dl w :
  sent (snd (process_file_button net i dt uf dl w))
  = sent w ++
    match uf, dl with
    | Some f, Some l => if process_file_pressed i then [upload_request f dt l] else []
    | _, _ => []
    end.
Proof.
  unfold process_file_button.
  destruct uf as [f |]; [destruct dl as [l |] |];
    try (simpl; rewrite ?app_nil_r; reflexivity).
  unfold st_sidebar_button, bind, st. simpl.
  destruct (process_file_pressed i).
  - rewrite process_file_sends. reflexivity.
  - simpl. now rewrite app_nil_r.
Qed.

Lemma generated_documentation_sends i w :
  (fst (generated_documentation net i w) = Ok tt ->
   exists gets,
     sent (snd (generated_documentation net i w)) = sent w ++ gets /\
     (List.length (uploaded_files w) <= List.length gets
      <= 2 * List.length (uploaded_files w))%nat /\
     forallb (fun rq => negb (is_POST rq)) gets = true) /\
  (fst (generated_documentation net i w) = Raise RerunException ->
   sent (snd (generated_documentation net i w)) = sent w).
Proof.
  destruct (generated_documentation net i w) as [res wf] eqn:Hrun.
  unfold generated_documentation, st_button, session_state_uploaded_files, bind, st in Hrun.
  simpl in Hrun.
  destruct (uploaded_files w) as [| r files] eqn:E.
  - injection Hrun as <- <-. simpl. split; [| discriminate].
    intros _. exists []. rewrite app_nil_r.
    split; [reflexivity | split; [simpl; lia | reflexivity]].
  - destruct (refresh_status_pressed i); simpl in Hrun.
    + injection Hrun as <- <-. simpl. split; [discriminate | reflexivity].
    + match type of Hrun with
      | for_each ?l (show_file net) ?w1 = _ =>
          destruct (for_each_show_file net l w1) as (Hret & _);
          destruct (for_each_show_file_sends net l w1) as (gets & Hsent & Hlen & Hget)
      end.
      rewrite Hrun in Hret, Hsent. simpl in Hret, Hsent. subst res.
      split; [| discriminate]. intros _. exists gets. auto.
Qed.

(** One pass of the script: the upload, if any, then the requests of the
    loop; a pass cut short by the rerun request has sent the upload only. *)
Lemma script_sends i w :
  (fst (script net i w) = Ok tt ->
   exists gets,
     sent (snd (script net i w)) = sent w ++ uploads i ++ gets /\
     (List.length (uploaded_files (snd (script net i w))) <= List.length gets
      <= 2 * List.length (uploaded_files (snd (script net i w))))%nat /\
     forallb (fun rq => negb (is_POST rq)) gets = true) /\
  (fst (script net i w) = Raise RerunException ->
   sent (snd (script net i w)) = sent w ++ uploads i).
Proof.
  destruct (script net i w) as [res wf] eqn:Hrun.
  unfold script in Hrun. unfold bind at 1 in Hrun.
  destruct (sidebar_inputs_spec i w) as (H1 & _ & S1 & _).
  destruct (sidebar_inputs i w) as [r1 w1]. simpl in H1, S1. subst r1.
  unfold bind in Hrun.
  pose proof (process_file_button_sends i (chosen_doc_type i) (chosen_file i)
                match chosen_file i with Some _ => Some (chosen_doc_level i) | None => None end
                w1) as S2.
  destruct (process_file_button_spec net i (chosen_doc_type i) (chosen_file i)
              match chosen_file i with Some _ => Some (chosen_doc_level i) | None => None end
              w1) as (H2 & _ & _).
  destruct (process_file_button net i (chosen_doc_type i) (chosen_file i) _ w1) as [r2 w2].
  simpl in H2, S2. subst r2.
  assert (Hup : sent w2 = sent w ++ uploads i).
  { rewrite S2, S1. unfold uploads. destruct (chosen_file i); reflexivity. }
  destruct (generated_documentation_sends i w2) as [Hok Hraise].
  destruct (generated_documentation_spec net i w2) as (F3 & _).
  rewrite Hrun in Hok, Hraise, F3. simpl in Hok, Hraise, F3. simpl.
  split.
  - intros E. destruct (Hok E) as (gets & Hsent & Hlen & Hget).
    exists gets. rewrite Hsent, Hup, F3, <- app_assoc. auto.
  - intros E. rewrite (Hraise E). exact Hup.
Qed.

Lemma uploads_released i : uploads (released i) = [].
Proof. unfold uploads, released. simpl. destruct (chosen_file i); reflexivity. Qed.

Lemma run_sends i w :
  exists gets,
    sent (snd (run net i w)) = sent w ++ uploads i ++ gets /\
    (List.length (uploaded_files (snd (run net i w))) <= List.length gets
     <= 2 * List.length (uploaded_files (snd (run net i w))))%nat /\
    forallb (fun rq => negb (is_POST rq)) gets = true.
Proof.
  unfold run.
  destruct (script_spec net i (new_page w)) as (_ & H & _).
  destruct (script_sends i (new_page w)) as [Hok Hraise].
  destruct (script net i (new_page w)) as [[[] | e] w1]; simpl in H, Hok, Hraise.
  - exact (Hok eq_refl).
  - destruct H as [H | H]; [discriminate |]. injection H as ->.
    specialize (Hraise eq_refl).
    destruct (script_spec net (released i) (new_page w1)) as (_ & _ & P' & _).
    destruct (script_sends (released i) (new_page w1)) as [Hok' _].
    destruct (Hok' (P' eq_refl)) as (gets & Hsent & Hlen & Hget).
    exists gets. rewrite Hsent, uploads_released. simpl. rewrite Hraise, <- app_assoc. auto.
Qed.

End Traffic.

(** ** The passes of the script, step by step *)

Section Passes.

Variable net : backend.

Local Arguments for_each : simpl never.

(** The level the script passes on: there is one only while a file is held. *)
Let level (i : interaction) : option string :=
  match chosen_file i with Some _ => Some (chosen_doc_level i) | None => None end.

Lemma script_steps i w :
  exists w1 w2,
    sidebar_inputs i w = (Ok (chosen_doc_type i, chosen_file i, level i), w1) /\
    process_file_button net i (chosen_doc_type i) (chosen_file i) (level i) w1 = (Ok tt, w2) /\
    script net i w = generated_documentation net i w2.
Proof.
  pose proof (sidebar_inputs_spec i w) as (H1 & _).
  destruct (sidebar_inputs i w) as [r1 w1] eqn:E1. simpl in H1. subst r1.
  pose proof (process_file_button_spec net i (chosen_doc_type i) (chosen_file i) (level i) w1)
    as (H2 & _).
  destruct (process_file_button net i (chosen_doc_type i) (chosen_file i) (level i) w1)
    as [r2 w2] eqn:E2.
  simpl in H2. subst r2.
  exists w1, w2. split; [reflexivity |]. split; [exact E2 |].
  unfold script, bind. rewrite E1. fold (level i). rewrite E2. reflexivity.
Qed.

Lemma process_file_button_released i dt uf dl w :
  process_file_pressed i = false ->
  process_file_button net (released i) dt uf dl w = process_file_button net i dt uf dl w.
Proof.
  intros H. unfold process_file_button, st_sidebar_button, bind, st.
  destruct uf; [destruct dl |]; simpl; try reflexivity.
  rewrite H. reflexivity.
Qed.

Lemma generated_documentation_released i w :
  fst (generated_documentation net i w) = Ok tt ->
  generated_documentation net (released i) w = generated_documentation net i w.
Proof.
  unfold generated_documentation, st_button, session_state_uploaded_files, bind, st.
  simpl. destruct (uploaded_files w); [reflexivity |].
  destruct (refresh_status_pressed i); simpl; [discriminate | reflexivity].
Qed.

(** A pass that ends normally would have gone the same with the buttons
    released, unless Process File was pressed. *)
Lemma script_released i w :
  process_file_pressed i = false ->
  fst (script net i w) = Ok tt ->
  script net (released i) w = script net i w.
Proof.
  intros Hp Hok.
  destruct (script_steps i w) as (w1 & w2 & E1 & E2 & E3).
  destruct (script_steps (released i) w) as (w1' & w2' & E1' & E2' & E3').
  change (sidebar_inputs (released i) w) with (sidebar_inputs i w) in E1'.
  rewrite E1 in E1'. injection E1' as <-.
  change (chosen_doc_type (released i)) with (chosen_doc_type i) in E2'.
  change (chosen_file (released i)) with (chosen_file i) in E2'.
  change (level (released i)) with (level i) in E2'.
  rewrite (process_file_button_released i _ _ _ _ Hp), E2 in E2'. injection E2' as <-.
  rewrite E3', E3. rewrite E3 in Hok. apply generated_documentation_released, Hok.
Qed.

Lemma submitted_not_pressed i w : process_file_pressed i = false -> submitted net i w = [].
Proof. intros H. unfold submitted. rewrite H. destruct (chosen_file i); reflexivity. Qed.

Lemma uploads_not_pressed i : process_file_pressed i = false -> uploads i = [].
Proof. intros H. unfold uploads. rewrite H. destruct (chosen_file i); reflexivity. Qed.

Lemma run_released i w :
  process_file_pressed i = false -> run net i w = run net (released i) w.
Proof.
  intros Hp.
  assert (Hplain : forall w0, run net (released i) w0 = script net (released i) (new_page w0)).
  { intros w0. unfold run.
    destruct (script_spec net (released i) (new_page w0)) as (_ & _ & P & _).
    specialize (P eq_refl).
    destruct (script net (released i) (new_page w0)) as [[[] | e] w1];
      [reflexivity | discriminate]. }
  rewrite Hplain. unfold run.
  destruct (script_spec net i (new_page w)) as (F & H & _).
  destruct (script_sends net i (new_page w)) as [_ Hraise].
  pose proof (script_released i (new_page w) Hp) as Hsame.
  destruct (script net i (new_page w)) as [[[] | e] w1]; simpl in F, H, Hraise, Hsame.
  - symmetry. apply Hsame. reflexivity.
  - destruct H as [H | H]; [discriminate |]. injection H as ->.
    specialize (Hraise eq_refl).
    rewrite (submitted_not_pressed i _ Hp), app_nil_r in F.
    rewrite (uploads_not_pressed i Hp), app_nil_r in Hraise.
    unfold new_page. rewrite F, Hraise. reflexivity.
Qed.

(** With nothing in the list, the documentation part is the header and the
    invitation to upload. *)
Lemma generated_documentation_empty i w :
  uploaded_files w = [] ->
  generated_documentation net i w
  = (Ok tt,
     {| uploaded_files := uploaded_files w;
        page := page w
                ++ [header [Lit "Generated Documentation"];
                    info [Lit "No files have been uploaded yet. Upload a file to get started."]];
        sent := sent w |}).
Proof.
  intros E.
  unfold generated_documentation, st_button, session_state_uploaded_files, bind, st.
  simpl. rewrite E. simpl. now rewrite <- app_assoc.
Qed.

Lemma script_empty i w :
  uploaded_files (snd (script net i w)) = [] ->
  fst (script net i w) = Ok tt /\
  sent (snd (script net i w)) = sent w ++ uploads i /\
  exists p,
    page (snd (script net i w))
    = p ++ [header [Lit "Generated Documentation"];
            info [Lit "No files have been uploaded yet. Upload a file to get started."]].
Proof.
  intros Hempty.
  destruct (script_steps i w) as (w1 & w2 & E1 & E2 & E3).
  pose proof (generated_documentation_spec net i w2) as (F & _).
  pose proof (script_sends net i w) as [Hok _].
  rewrite E3 in Hempty, Hok |- *. rewrite Hempty in F. symmetry in F.
  rewrite (generated_documentation_empty i w2 F) in Hok |- *. simpl in Hok |- *.
  split; [reflexivity |]. split; [| eexists; reflexivity].
  destruct (Hok eq_refl) as (gets & Hsent & Hlen & _).
  rewrite F in Hlen. simpl in Hlen.
  destruct gets; [| simpl in Hlen; lia].
  rewrite Hsent, app_nil_r. reflexivity.
Qed.

(** *** Buttons *)

Lemma main_buttons_sidebar_inputs i : keeps (picked is_main_button) (sidebar_inputs i).
Proof.
  unfold sidebar_inputs, st_sidebar_selectbox, st_sidebar_file_uploader. follow_picked.
Qed.

Lemma sidebar_buttons_sidebar_inputs i : keeps (picked is_sidebar_button) (sidebar_inputs i).
Proof.
  unfold sidebar_inputs, st_sidebar_selectbox, st_sidebar_file_uploader. follow_picked.
Qed.

Lemma buttons_process_file g i f dt dl :
  g (spinner [Lit "Uploading and processing file..."]) = false ->
  (forall t, g (write t) = false) ->
  (forall t, g (error t) = false) ->
  (forall t, g (success t) = false) ->
  keeps (picked g) (process_file net i f dt dl).
Proof.
  intros Hspin Hwrite Herror Hsuccess.
  unfold process_file, upload_and_process_file, requests_post.
  repeat first
    [ progress intros
    | apply keeps_bind
    | apply keeps_try_except
    | apply keeps_try_except_all
    | apply keeps_ret
    | apply keeps_json
    | apply keeps_py_get
    | apply picked_st; solve [apply Hspin | apply Hwrite | apply Herror | apply Hsuccess]
    | apply picked_perform
    | apply picked_append
    | split_cases ].
Qed.

Lemma buttons_show_file g r :
  (forall t, g (write t) = false) ->
  (forall t, g (error t) = false) ->
  (forall t, g (subheader t) = false) ->
  (forall t, g (markdown t) = false) ->
  (forall t, g (warning t) = false) ->
  (forall t, g (spinner t) = false) ->
  (forall t, g (info t) = false) ->
  (forall n, g (columns n) = false) ->
  (forall n, g (column n) = false) ->
  keeps (picked g) (show_file net r).
Proof.
  intros H1 H2 H3 H4 H5 H6 H7 H8 H9.
  unfold show_file, check_documentation_exists, get_pdf_content, requests_get,
    create_download_button, display_pdf.
  repeat first
    [ progress intros
    | apply keeps_bind
    | apply keeps_try_except
    | apply keeps_try_except_all
    | apply keeps_ret
    | apply keeps_json
    | apply keeps_py_get
    | apply picked_st;
      solve [apply H1 | apply H2 | apply H3 | apply H4 | apply H5 | apply H6
            | apply H7 | apply H8 | apply H9]
    | apply picked_perform
    | split_cases ].
Qed.

Lemma process_file_button_buttons i dt uf dl w :
  picked is_main_button (snd (process_file_button net i dt uf dl w))
  = picked is_main_button w /\
  picked is_sidebar_button (snd (process_file_button net i dt uf dl w))
  = picked is_sidebar_button w ++
    match uf, dl with
    | Some _, Some _ => [sidebar (button "Process File")]
    | _, _ => []
    end.
Proof.
  unfold process_file_button.
  destruct uf as [f |]; [destruct dl as [l |] |];
    try (simpl; rewrite ?app_nil_r; auto; fail).
  unfold st_sidebar_button, bind, st. simpl.
  destruct (process_file_pressed i).
  - split.
    + rewrite buttons_process_file by reflexivity. tidy_page. reflexivity.
    + rewrite buttons_process_file by reflexivity. tidy_page. reflexivity.
  - simpl. split; tidy_page; reflexivity.
Qed.

Lemma generated_documentation_buttons i w :
  picked is_main_button (snd (generated_documentation net i w))
  = picked is_main_button w ++
    match uploaded_files w with
    | [] => []
    | _ :: _ => [button "Refresh Status"]
    end /\
  picked is_sidebar_button (snd (generated_documentation net i w))
  = picked is_sidebar_button w.
Proof.
  destruct (generated_documentation net i w) as [res wf] eqn:Hrun.
  unfold generated_documentation, st_button, session_state_uploaded_files, bind, st in Hrun.
  simpl in Hrun.
  destruct (uploaded_files w) as [| r files] eqn:E.
  - injection Hrun as <- <-. simpl. split; tidy_page; reflexivity.
  - destruct (refresh_status_pressed i); simpl in Hrun.
    + injection Hrun as <- <-. simpl. split; tidy_page; reflexivity.
    + match type of Hrun with
      | for_each ?l (show_file net) ?w1 = _ =>
          pose proof (keeps_for_each (picked is_main_button) (show_file net) l
                        (fun x => buttons_show_file is_main_button x
                                    ltac:(reflexivity) ltac:(reflexivity) ltac:(reflexivity)
                                    ltac:(reflexivity) ltac:(reflexivity) ltac:(reflexivity)
                                    ltac:(reflexivity) ltac:(reflexivity) ltac:(reflexivity))
                        w1) as Hm;
          pose proof (keeps_for_each (picked is_sidebar_button) (show_file net) l
                        (fun x => buttons_show_file is_sidebar_button x
                                    ltac:(reflexivity) ltac:(reflexivity) ltac:(reflexivity)
                                    ltac:(reflexivity) ltac:(reflexivity) ltac:(reflexivity)
                                    ltac:(reflexivity) ltac:(reflexivity) ltac:(reflexivity))
                        w1) as Hs
      end.
      rewrite Hrun in Hm, Hs. simpl in Hm, Hs. simpl. rewrite Hm, Hs.
      split; tidy_page; reflexivity.
Qed.

Lemma script_buttons i w :
  picked is_main_button (snd (script net i w))
  = picked is_main_button w ++
    match uploaded_files (snd (script net i w)) with
    | [] => []
    | _ :: _ => [button "Refresh Status"]
    end /\
  picked is_sidebar_button (snd (script net i w))
  = picked is_sidebar_button w ++
    match chosen_file i with
    | Some _ => [sidebar (button "Process File")]
    | None => []
    end.
Proof.
  destruct (script_steps i w) as (w1 & w2 & E1 & E2 & E3).
  pose proof (main_buttons_sidebar_inputs i w) as M1.
  pose proof (sidebar_buttons_sidebar_inputs i w) as S1.
  rewrite E1 in M1, S1. simpl in M1, S1.
  pose proof (process_file_button_buttons i (chosen_doc_type i) (chosen_file i) (level i) w1)
    as [M2 S2].
  rewrite E2 in M2, S2. simpl in M2, S2.
  pose proof (generated_documentation_buttons i w2) as [M3 S3].
  pose proof (generated_documentation_spec net i w2) as (F3 & _).
  rewrite E3, F3, M3, S3, M2, S2, M1, S1. split; [reflexivity |].
  unfold level. destruct (chosen_file i); reflexivity.
Qed.

Lemma run_buttons i w :
  picked is_main_button (snd (run net i w))
  = match uploaded_files (snd (run net i w)) with
    | [] => []
    | _ :: _ => [button "Refresh Status"]
    end /\
  picked is_sidebar_button (snd (run net i w))
  = match chosen_file i with
    | Some _ => [sidebar (button "Process File")]
    | None => []
    end.
Proof.
  unfold run.
  destruct (script_spec net i (new_page w)) as (_ & H & _).
  pose proof (script_buttons i (new_page w)) as B.
  destruct (script net i (new_page w)) as [[[] | e] w1]; simpl in H, B.
  - exact B.
  - destruct H as [H | H]; [discriminate |]. injection H as ->.
    exact (script_buttons (released i) (new_page w1)).
Qed.

End Passes.

(** ** The handler's messages, and the records of a session *)

Section Records.

Variable net : backend.

(** The world the handler leaves, from the world the helper leaves. *)
Lemma process_file_world i f dt dl w :
  let w1 := {| uploaded_files := uploaded_files w;
               page := page w ++ [spinner [Lit "Uploading and processing file..."]];
               sent := sent w |} in
  let w2 := snd (upload_and_process_file net f dt dl w1) in
  snd (process_file net i f dt dl w)
  = match verdict (next_answer net w (upload_request f dt dl)) with
    | VDict items =>
        {| uploaded_files := uploaded_files w2
                             ++ [record_for i f dt dl (field "file_id" items)];
           page := page w2 ++ [success [Lit "File uploaded successfully! File ID: ";
                                        Fmt (field "file_id" items)]];
           sent := sent w2 |}
    | _ => w2
    end.
Proof.
  intros w1 w2. subst w2.
  destruct (process_file net i f dt dl w) as [res wf] eqn:Hp.
  unfold process_file, bind in Hp. simpl in Hp. fold w1 in Hp.
  pose proof (upload_returns net f dt dl w1) as Hret.
  unfold returned in Hret.
  change (next_answer net w1 (upload_request f dt dl))
    with (next_answer net w (upload_request f dt dl)) in Hret.
  destruct (upload_and_process_file net f dt dl w1) as [[v | e] w2];
    simpl in Hret; [| discriminate].
  injection Hret as ->. simpl.
  destruct (verdict_shape (next_answer net w (upload_request f dt dl))) as [E | [items E]].
  - rewrite E in *. simpl in Hp. now injection Hp as <- <-.
  - rewrite E in *. rewrite (truthy_verdict _ _ E) in Hp.
    unfold py_get, field, record_for in *.
    destruct (lookup "file_id" items); simpl in Hp; now injection Hp as <- <-.
Qed.

Lemma chosen_doc_type_listed i : In (chosen_doc_type i) doc_type_options.
Proof.
  unfold chosen_doc_type. destruct (doc_type_index i) as [| [| [| n]]]; simpl; auto.
  destruct n; simpl; auto.
Qed.

Lemma chosen_doc_level_listed i : In (chosen_doc_level i) doc_level_options.
Proof.
  unfold chosen_doc_level. destruct (doc_level_index i) as [| [| [| n]]]; simpl; auto.
  destruct n; simpl; auto.
Qed.

Lemma submitted_well_formed i w : Forall well_formed (submitted net i w).
Proof.
  unfold submitted, new_records.
  destruct (chosen_file i); [| constructor].
  destruct (process_file_pressed i); [| constructor].
  destruct (verdict _); try constructor; [| constructor].
  split; [apply chosen_doc_type_listed | apply chosen_doc_level_listed].
Qed.

Lemma session_well_formed steps : forall w,
  Forall well_formed (uploaded_files w) ->
  Forall well_formed (uploaded_files (session net steps w)).
Proof.
  induction steps as [| i steps IH]; intros w H; simpl; [exact H |].
  apply IH. destruct (run_spec net i w) as (_ & -> & _).
  apply Forall_app. split; [exact H | apply submitted_well_formed].
Qed.

Lemma submitted_accepted i f w r items :
  chosen_file i = Some f ->
  process_file_pressed i = true ->
  next_answer net w (upload_request f (chosen_doc_type i) (chosen_doc_level i)) = Reply r ->
  status_code r = 200 ->
  json_body r = Some (VDict items) ->
  truthy (field "success" items) = true ->
  submitted net i w
  = [record_for i f (chosen_doc_type i) (chosen_doc_level i) (field "file_id" items)].
Proof.
  intros Hf Hp Hans Hcode Hjson Hflag. unfold submitted, new_records.
  rewrite Hf, Hp, Hans, (verdict_accepted r items Hcode Hjson Hflag). reflexivity.
Qed.

End Records.

(** ** Further properties *)

(** X1. A failed submission is reported once: the handler adds exactly one
    error box to the page, the one for the kind of failure, and no success
    box. *)
Theorem failed_submission_shows_one_error net i f dt dl w :
  failed (next_answer net w (upload_request f dt dl)) ->
  picked is_error (after (process_file net i f dt dl) w)
  = picked is_error w ++ [error (complaint (next_answer net w (upload_request f dt dl)))] /\
  picked is_success (after (process_file net i f dt dl) w) = picked is_success w.
Proof.
  intros Hfail. unfold after.
  rewrite process_file_world, (verdict_failed _ Hfail). cbv zeta.
  set (w1 := {| uploaded_files := uploaded_files w;
                page := page w ++ [spinner [Lit "Uploading and processing file..."]];
                sent := sent w |}).
  pose proof (upload_page_errors net f dt dl w1 Hfail) as He.
  pose proof (success_upload_and_process_file net f dt dl w1) as Hs.
  unfold after in He. rewrite He, Hs. unfold w1, picked. simpl.
  rewrite !filter_app. simpl. rewrite !app_nil_r. auto.
Qed.

Lemma failed_submission_shows_one_error_witness :
  picked is_error
    (after (process_file net_down (press_process demo_file) demo_file "SOW" "Advanced")
       initial)
  = [error [Lit "Error uploading file: "; FmtExn (RequestException "connection refused")]].
Proof.
  exact (proj1
    (failed_submission_shows_one_error net_down (press_process demo_file) demo_file
       "SOW" "Advanced" initial (failed_network "connection refused"))).
Defined.

(** X2. When the backend answers 200 with a JSON object whose success flag
    is false or missing, the error box carries the object's message, and the
    words Unknown error when the object has none. *)
Theorem rejected_upload_shows_the_message net f dt dl w r items :
  next_answer net w (upload_request f dt dl) = Reply r ->
  status_code r = 200 ->
  json_body r = Some (VDict items) ->
  truthy (field "success" items) = false ->
  picked is_error (after (upload_and_process_file net f dt dl) w)
  = picked is_error w
    ++ [error [Lit "Upload failed: ";
               Fmt (match lookup "message" items with
                    | Some m => m
                    | None => VStr "Unknown error"
                    end)]].
Proof.
  intros Hans Hcode Hjson Hflag.
  assert (Hfail : failed (next_answer net w (upload_request f dt dl))).
  { rewrite Hans. now apply (failed_flag r items). }
  rewrite (upload_page_errors net f dt dl w Hfail), Hans.
  unfold complaint. apply Z.eqb_eq in Hcode. rewrite Hcode, Hjson. reflexivity.
Qed.

Lemma rejected_upload_shows_the_message_witness :
  picked is_error
    (after (upload_and_process_file (net_rejecting None) demo_file "SOW" "Advanced") initial)
  = [error [Lit "Upload failed: "; Fmt (VStr "Unknown error")]].
Proof.
  exact (rejected_upload_shows_the_message (net_rejecting None) demo_file "SOW" "Advanced"
           initial
           {| status_code := 200; content := [];
              json_body := Some (VDict [("success", VBool false)]) |}
           [("success", VBool false)] eq_refl eq_refl eq_refl eq_refl).
Defined.

(** X3. An accepted upload is confirmed once: the handler adds one success
    box naming the id the backend gave, and no error box. *)
Theorem accepted_upload_shows_success net i f dt dl w r items :
  next_answer net w (upload_request f dt dl) = Reply r ->
  status_code r = 200 ->
  json_body r = Some (VDict items) ->
  truthy (field "success" items) = true ->
  picked is_success (after (process_file net i f dt dl) w)
  = picked is_success w
    ++ [success [Lit "File uploaded successfully! File ID: "; Fmt (field "file_id" items)]] /\
  picked is_error (after (process_file net i f dt dl) w) = picked is_error w.
Proof.
  intros Hans Hcode Hjson Hflag. unfold after.
  rewrite process_file_world, Hans, (verdict_accepted r items Hcode Hjson Hflag). cbv zeta.
  set (w1 := {| uploaded_files := uploaded_files w;
                page := page w ++ [spinner [Lit "Uploading and processing file..."]];
                sent := sent w |}).
  pose proof (success_upload_and_process_file net f dt dl w1) as Hs.
  pose proof (errors_accepted_upload net f dt dl w1 r items Hans Hcode Hjson Hflag) as He.
  unfold after in He. unfold picked in *. simpl. rewrite !filter_app, Hs, He. simpl.
  unfold w1. simpl. rewrite !filter_app. simpl. rewrite !app_nil_r. auto.
Qed.

Lemma accepted_upload_shows_success_witness :
  picked is_success
    (after (process_file (net_accepting (VStr "abc123")) (press_process demo_file) demo_file
              "SOW" "Advanced") initial)
  = [success [Lit "File uploaded successfully! File ID: "; Fmt (VStr "abc123")]].
Proof.
  exact (proj1
    (accepted_upload_shows_success (net_accepting (VStr "abc123")) (press_process demo_file)
       demo_file "SOW" "Advanced" initial
       {| status_code := 200; content := [];
          json_body := Some (VDict [("success", VBool true); ("file_id", VStr "abc123")]) |}
       [("success", VBool true); ("file_id", VStr "abc123")]
       eq_refl eq_refl eq_refl eq_refl)).
Defined.

(** X4. For a record whose existence check answers 200 and whose PDF comes
    with status 200 and a body that is not empty, the loop sends exactly
    those two requests, draws the four download links (pdf, docx, html,
    json, in that order) and previews exactly the bytes served. The other
    three formats are linked, never fetched. *)
Theorem ready_record_is_previewed net r w r1 r2 :
  next_answer net w (GET (documentation_url (file_id r))) = Reply r1 ->
  status_code r1 = 200 ->
  second_answer net w (GET (download_pdf_url (file_id r))) = Reply r2 ->
  status_code r2 = 200 ->
  content r2 <> [] ->
  returned (show_file net r) w = Ok tt /\
  page (after (show_file net r) w) = page w ++ available r (content r2) /\
  sent (after (show_file net r) w)
  = sent w ++ [GET (documentation_url (file_id r)); GET (download_pdf_url (file_id r))] /\
  uploaded_files (after (show_file net r) w) = uploaded_files w.
Proof.
  intros Hans1 Hcode1 Hans2 Hcode2 Hbody.
  assert (Ht : truthy_bytes (content r2) = true).
  { destruct (content r2); [congruence | reflexivity]. }
  unfold returned, after.
  rewrite (show_file_available net r w r1 r2 Hans1 Hcode1 Hans2 Hcode2 Ht). auto.
Qed.

Lemma ready_record_is_previewed_witness :
  page (after (show_file net_serving abc123) one_record) = available abc123 pdf_bytes.
Proof.
  exact (proj1 (proj2
    (ready_record_is_previewed net_serving abc123 one_record
       {| status_code := 200; content := pdf_bytes; json_body := None |}
       {| status_code := 200; content := pdf_bytes; json_body := None |}
       eq_refl eq_refl eq_refl eq_refl ltac:(discriminate)))).
Defined.

(** X5. For a record whose existence check is not answered with 200, the
    loop ends its turn with the spinner and the not-ready note, sends the
    existence check and at most the progress query, and does not request
    the PDF. *)
Theorem not_ready_record_is_not_fetched net r w :
  is_200 (next_answer net w (GET (documentation_url (file_id r)))) = false ->
  returned (show_file net r) w = Ok tt /\
  sent (after (show_file net r) w)
  = sent w ++ requests_of r (next_answer net w (GET (documentation_url (file_id r)))) /\
  ~ In (GET (download_pdf_url (file_id r)))
       (requests_of r (next_answer net w (GET (documentation_url (file_id r))))) /\
  exists lines,
    page (after (show_file net r) w)
    = page w
      ++ [subheader [Lit "File: "; Fmt (VStr (filename r))];
          markdown [Lit "File ID: `"; Fmt (file_id r); Lit "`"]]
      ++ lines
      ++ [spinner [Lit "Documentation is being generated..."];
          info [Lit "Documentation is not ready yet. Please wait or refresh."]].
Proof.
  intros Hnot.
  destruct (show_file_not_ready net r w Hnot) as (Hret & Hsent & Hpage).
  split; [exact Hret |]. split; [exact Hsent |]. split; [| exact Hpage].
  unfold requests_of. destruct (next_answer net w _) as [why | a]; simpl in *.
  - intros [H | []]. discriminate.
  - rewrite Hnot. simpl. intros [H | [H | []]]; discriminate.
Qed.

Lemma not_ready_record_is_not_fetched_witness :
  sent (after (show_file net_down abc123) one_record)
  = [GET (documentation_url (VStr "abc123"))].
Proof.
  exact (proj1 (proj2 (not_ready_record_is_not_fetched net_down abc123 one_record eq_refl))).
Defined.

(** X6. When a record is not ready and the progress query is answered with
    status 200 and a JSON object, the poll returns false and writes the
    status, the progress and the current stage of that object ([None] for a
    field it lacks); it shows an error box with the object's error exactly
    when that field is truthy. *)
Theorem progress_is_reported net file_id w r r' items :
  next_answer net w (GET (documentation_url file_id)) = Reply r ->
  status_code r <> 200 ->
  second_answer net w (GET (status_url file_id)) = Reply r' ->
  status_code r' = 200 ->
  json_body r' = Some (VDict items) ->
  returned (check_documentation_exists net file_id) w = Ok false /\
  page (after (check_documentation_exists net file_id) w)
  = page w ++ progress_lines file_id r items /\
  picked is_error (after (check_documentation_exists net file_id) w)
  = picked is_error w
    ++ (if truthy (field "error" items)
        then [error [Lit "Processing error: "; Fmt (field "error" items)]]
        else []).
Proof.
  intros Hans Hcode Hans' Hcode' Hjson.
  pose proof (progress_page net file_id w r r' items Hans Hcode Hans' Hcode' Hjson) as Hpage.
  split; [| split; [exact Hpage |]].
  - rewrite check_documentation_exists_returns, Hans. simpl.
    apply Z.eqb_neq in Hcode. rewrite Hcode. reflexivity.
  - unfold picked. rewrite Hpage, filter_app. f_equal.
    unfold progress_lines. rewrite filter_app. simpl.
    destruct (truthy (field "error" items)); reflexivity.
Qed.

Lemma progress_is_reported_witness :
  page (after (check_documentation_exists net_in_progress (VStr "abc123")) initial)
  = progress_lines (VStr "abc123") {| status_code := 404; content := []; json_body := None |}
      [("status", VStr "processing"); ("progress", VInt 50);
       ("current_stage", VStr "transcription")].
Proof.
  exact (proj1 (proj2
    (progress_is_reported net_in_progress (VStr "abc123") initial
       {| status_code := 404; content := []; json_body := None |}
       {| status_code := 200; content := [];
          json_body := Some (VDict [("status", VStr "processing"); ("progress", VInt 50);
                                    ("current_stage", VStr "transcription")]) |}
       [("status", VStr "processing"); ("progress", VInt 50);
        ("current_stage", VStr "transcription")]
       eq_refl ltac:(discriminate) eq_refl eq_refl eq_refl))).
Defined.


(** X8. The only POST the client ever sends is the upload, once per press
    of Process File while a file is held, carrying that file and the type
    and level the select boxes hold; everything else a run sends is a GET. *)
Theorem upload_is_sent_once_per_press net i w :
  posts (snd (run net i w)) = posts w ++ uploads i.
Proof.
  destruct (run_sends net i w) as (gets & Hsent & _ & Hget).
  unfold posts. rewrite Hsent, !filter_app, (filter_none _ _ Hget), app_nil_r.
  f_equal. unfold uploads. destruct (chosen_file i); [| reflexivity].
  destruct (process_file_pressed i); reflexivity.
Qed.

(** X9. Refresh Status does nothing of its own: without a press of Process
    File, a run with Refresh Status pressed ends in the same world, page
    included, as the same run with the button released. *)
Theorem refresh_is_a_plain_rerun net i w :
  process_file_pressed i = false ->
  run net i w = run net (released i) w.
Proof.
  apply run_released.
Qed.

Lemma refresh_is_a_plain_rerun_witness :
  run net_serving press_refresh one_record = run net_serving (released press_refresh) one_record.
Proof.
  exact (refresh_is_a_plain_rerun net_serving press_refresh one_record eq_refl).
Defined.

(** X10. Submitting the same file twice gives two records: when both
    uploads are accepted, the list gains one record for each, in order,
    each with the id of its own answer. *)
Theorem resubmission_adds_a_second_record net i f w r1 items1 r2 items2 :
  chosen_file i = Some f ->
  process_file_pressed i = true ->
  next_answer net w (upload_request f (chosen_doc_type i) (chosen_doc_level i)) = Reply r1 ->
  status_code r1 = 200 ->
  json_body r1 = Some (VDict items1) ->
  truthy (field "success" items1) = true ->
  next_answer net (snd (run net i w))
    (upload_request f (chosen_doc_type i) (chosen_doc_level i)) = Reply r2 ->
  status_code r2 = 200 ->
  json_body r2 = Some (VDict items2) ->
  truthy (field "success" items2) = true ->
  uploaded_files (session net [i; i] w)
  = uploaded_files w
    ++ [record_for i f (chosen_doc_type i) (chosen_doc_level i) (field "file_id" items1);
        record_for i f (chosen_doc_type i) (chosen_doc_level i) (field "file_id" items2)].
Proof.
  intros Hf Hp Hans1 Hcode1 Hjson1 Hflag1 Hans2 Hcode2 Hjson2 Hflag2. simpl.
  destruct (run_spec net i (snd (run net i w))) as (_ & -> & _).
  destruct (run_spec net i w) as (_ & -> & _).
  rewrite (submitted_accepted net i f w r1 items1 Hf Hp Hans1 Hcode1 Hjson1 Hflag1).
  rewrite (submitted_accepted net i f _ r2 items2 Hf Hp Hans2 Hcode2 Hjson2 Hflag2).
  now rewrite <- app_assoc.
Qed.

Lemma resubmission_adds_a_second_record_witness :
  map file_id
    (uploaded_files
       (session (net_accepting (VStr "abc123"))
          [press_process demo_file; press_process demo_file] initial))
  = [VStr "abc123"; VStr "abc123"].
Proof.
  exact (f_equal (map file_id)
    (resubmission_adds_a_second_record (net_accepting (VStr "abc123"))
       (press_process demo_file) demo_file initial
       {| status_code := 200; content := [];
          json_body := Some (VDict [("success", VBool true); ("file_id", VStr "abc123")]) |}
       [("success", VBool true); ("file_id", VStr "abc123")]
       {| status_code := 200; content := [];
          json_body := Some (VDict [("success", VBool true); ("file_id", VStr "abc123")]) |}
       [("success", VBool true); ("file_id", VStr "abc123")]
       eq_refl eq_refl eq_refl eq_refl eq_refl eq_refl eq_refl eq_refl eq_refl eq_refl)).
Defined.

(** X11. Every record the script stores carries a type and a level that
    are entries of the two select boxes: if the records of the list do at
    the start of a session, they all do at its end. *)
Theorem records_keep_listed_type_and_level net steps w :
  Forall well_formed (uploaded_files w) ->
  Forall well_formed (uploaded_files (session net steps w)).
Proof.
  apply session_well_formed.
Qed.

Lemma records_keep_listed_type_and_level_witness :
  Forall well_formed
    (uploaded_files (session net_scenario [press_process demo_file; just_look] initial)).
Proof.
  exact (records_keep_listed_type_and_level net_scenario [press_process demo_file; just_look]
           initial (Forall_nil well_formed)).
Defined.

(** X12. While the list is empty the documentation part polls nothing: a
    run that ends with an empty list has sent at most the upload, and its
    page ends with the header and the invitation to upload a file. *)
Theorem empty_list_is_not_polled net i w :
  uploaded_files (snd (run net i w)) = [] ->
  fst (run net i w) = Ok tt /\
  sent (snd (run net i w)) = sent w ++ uploads i /\
  exists p,
    page (snd (run net i w))
    = p ++ [header [Lit "Generated Documentation"];
            info [Lit "No files have been uploaded yet. Upload a file to get started."]].
Proof.
  unfold run.
  destruct (script_spec net i (new_page w)) as (_ & H & _).
  pose proof (script_empty net i (new_page w)) as Hempty.
  pose proof (script_sends net i (new_page w)) as [_ Hraise].
  destruct (script net i (new_page w)) as [[[] | e] w1]; simpl in H, Hempty, Hraise.
  - exact Hempty.
  - destruct H as [H | H]; [discriminate |]. injection H as ->.
    intros E. destruct (script_empty net (released i) (new_page w1) E) as (Hok & Hsent & Hp).
    split; [exact Hok |]. split; [| exact Hp].
    rewrite Hsent, uploads_released, app_nil_r. simpl. apply Hraise. reflexivity.
Qed.

Lemma empty_list_is_not_polled_witness :
  sent (snd (run net_down just_look initial)) = [].
Proof.
  exact (proj1 (proj2 (empty_list_is_not_polled net_down just_look initial eq_refl))).
Defined.

(** X13. The page a run leaves offers Process File exactly when a file is
    held, and Refresh Status exactly when the list is not empty; neither
    button is ever drawn twice. *)
Theorem buttons_offered net i w :
  picked is_sidebar_button (snd (run net i w))
  = match chosen_file i with
    | Some _ => [sidebar (button "Process File")]
    | None => []
    end /\
  picked is_main_button (snd (run net i w))
  = match uploaded_files (snd (run net i w)) with
    | [] => []
    | _ :: _ => [button "Refresh Status"]
    end.
Proof.
  destruct (run_buttons net i w) as [Hm Hs]. auto.
Qed.

(** X14. A poll shows an error box for one thing only, a processing error
    reported by the backend: a failed call, a status other than 200 or a
    body that cannot be read, at the existence check or at the progress
    query, never puts an error box on the page. *)
Theorem poll_shows_processing_errors_only net file_id w :
  picked is_error (after (check_documentation_exists net file_id) w)
  = picked is_error w
    ++ match processing_error (next_answer net w (GET (documentation_url file_id)))
               (second_answer net w (GET (status_url file_id))) with
       | Some e => [error [Lit "Processing error: "; Fmt e]]
       | None => []
       end.
Proof.
  unfold processing_error, field. run_helper.
  destruct (net _ _) as [why | r]; simpl; [tidy_page; reflexivity |].
  destruct (status_code r =? 200); simpl; [tidy_page; reflexivity |].
  rewrite length_app, Nat.add_comm. simpl.
  destruct (net _ _) as [why' | r']; simpl; [tidy_page; reflexivity |].
  destruct (status_code r' =? 200); simpl; [| tidy_page; reflexivity].
  destruct (json_body r') as [v |]; simpl; [| tidy_page; reflexivity].
  destruct v; simpl; try (tidy_page; reflexivity).
  destruct (lookup "status" items); simpl;
    destruct (lookup "progress" items); simpl;
    destruct (lookup "current_stage" items); simpl;
    destruct (lookup "error" items) as [e |]; simpl;
    try destruct (truthy e); simpl; tidy_page; reflexivity.
Qed.
